(* ===================================================================== *)
(*  Full Out Media website analyzer (website_analyzer.py, api.py):       *)
(*  a shallow embedding of the rule engine and scoring pipeline,         *)
(*  and the properties of it stated in the specification.                *)
(* ===================================================================== *)

From Stdlib Require Import ZArith String Ascii List Bool Lia.
From Stdlib Require Import Floats.SpecFloat.
From stdpp Require Import base option list gmap strings pretty.

Local Open Scope Z_scope.

(* ===================================================================== *)
(** * Python strings                                                      *)
(* ===================================================================== *)

(** A Python [str] is modelled as a [string] whose characters are the code
    points 0..255.  The operations below are the [str] methods the analyzer
    calls, restricted to that range. *)

Definition char_in (codes : list nat) (c : ascii) : bool :=
  existsb (Nat.eqb (nat_of_ascii c)) codes.

(** [str.isspace] on one character: tab, newline, vertical tab, form feed,
    carriage return, the separators 28..31, space, NEL and no-break space. *)
Definition py_isspace (c : ascii) : bool :=
  char_in [9; 10; 11; 12; 13; 28; 29; 30; 31; 32; 133; 160]%nat c.

Definition py_isdigit (c : ascii) : bool :=
  let n := nat_of_ascii c in (48 <=? n)%nat && (n <=? 57)%nat.

Definition py_isupper_ascii (c : ascii) : bool :=
  let n := nat_of_ascii c in (65 <=? n)%nat && (n <=? 90)%nat.

Fixpoint py_lstrip (s : string) : string :=
  match s with
  | String c s' => if py_isspace c then py_lstrip s' else s
  | EmptyString => EmptyString
  end.

Fixpoint py_rstrip (s : string) : string :=
  match s with
  | String c s' =>
      match py_rstrip s' with
      | EmptyString => if py_isspace c then EmptyString else String c EmptyString
      | r => String c r
      end
  | EmptyString => EmptyString
  end.

(** [s.strip()] *)
Definition py_strip (s : string) : string := py_rstrip (py_lstrip s).

Definition py_lower_char (c : ascii) : ascii :=
  let n := nat_of_ascii c in
  if ((65 <=? n) && (n <=? 90) || (192 <=? n) && (n <=? 222) && negb (n =? 215))%nat
  then ascii_of_nat (n + 32) else c.

Definition py_upper_char (c : ascii) : ascii :=
  let n := nat_of_ascii c in
  if ((97 <=? n) && (n <=? 122) || (224 <=? n) && (n <=? 254) && negb (n =? 247))%nat
  then ascii_of_nat (n - 32) else c.

(** [s.lower()] *)
Fixpoint py_lower (s : string) : string :=
  match s with
  | String c s' => String (py_lower_char c) (py_lower s')
  | EmptyString => EmptyString
  end.

(** [s.capitalize()]: first character upper-cased, the rest lower-cased. *)
Definition py_capitalize (s : string) : string :=
  match s with
  | String c s' => String (py_upper_char c) (py_lower s')
  | EmptyString => EmptyString
  end.

(** [s.startswith(p)] *)
Definition py_startswith (p s : string) : bool := String.prefix p s.

(** [needle in hay] *)
Fixpoint py_in (needle hay : string) : bool :=
  String.prefix needle hay ||
  match hay with
  | String _ hay' => py_in needle hay'
  | EmptyString => false
  end.

(** [sep.join(l)] *)
Fixpoint py_join (sep : string) (l : list string) : string :=
  match l with
  | [] => EmptyString
  | [s] => s
  | s :: l' => s +:+ sep +:+ py_join sep l'
  end.

(** Truth value of an optional string: [None] and [''] are false. *)
Definition truthy (o : option string) : bool :=
  match o with
  | Some (String _ _) => true
  | _ => false
  end.

(* ===================================================================== *)
(** * Python floats                                                       *)
(* ===================================================================== *)

(** A Python [float] is an IEEE 754 binary64 number; the operations are the
    specification functions of the standard library at precision 53 and
    maximal exponent 1024, which round to nearest, ties to even. *)

Definition prec : Z := 53.
Definition emax : Z := 1024.

Definition float : Type := spec_float.

Definition fadd : float -> float -> float := SFadd prec emax.
Definition fsub : float -> float -> float := SFsub prec emax.
Definition fmul : float -> float -> float := SFmul prec emax.
Definition fdiv : float -> float -> float := SFdiv prec emax.

(** [float(n)] for an [int] n, as done implicitly by [int * float] and
    [int - float].  Exact below 2^53. *)
Definition float_of_int (n : Z) : float := binary_normalize prec emax n 0 false.

(** [a / b] on two [int]s: the quotient of the two conversions, which is how
    CPython divides operands of at most 53 bits. *)
Definition int_truediv (a b : Z) : float := fdiv (float_of_int a) (float_of_int b).

Definition is_finite (x : float) : bool :=
  match x with
  | S754_zero _ | S754_finite _ _ _ => true
  | _ => false
  end.

(** [round(x)] with one argument: the nearest integer, ties to the even one.
    Python raises on an infinity or a NaN; the value 0 stands for that here,
    and [is_finite] tells the two apart. *)
Definition py_round (x : float) : Z :=
  match x with
  | S754_finite s m e =>
      let n :=
        match e with
        | Z0 => Zpos m
        | Zpos _ => Z.shiftl (Zpos m) e
        | Zneg p =>
            let q := Z.shiftr (Zpos m) (Zpos p) in
            let r := Zpos m - Z.shiftl q (Zpos p) in
            let half := Z.shiftl 1 (Zpos p - 1) in
            match r ?= half with
            | Lt => q
            | Gt => q + 1
            | Eq => if Z.even q then q else q + 1
            end
        end in
      if s then - n else n
  | _ => 0
  end.

(** [sum(xs)] of floats: start at the integer 0 and add from left to right,
    as the language reference describes it.  (CPython 3.12 and later keep a
    compensation term while adding, which can change the last bit.) *)
Definition py_sum (xs : list float) : float := fold_left fadd xs (float_of_int 0).

(** The literals 0.30, 0.35, 0.20 and 0.15 as binary64 numbers. *)
Definition f0_30 : float := S754_finite false 5404319552844595 (-54).
Definition f0_35 : float := S754_finite false 6305039478318694 (-54).
Definition f0_20 : float := S754_finite false 7205759403792794 (-55).
Definition f0_15 : float := S754_finite false 5404319552844595 (-55).

(* ===================================================================== *)
(** * Regular expressions                                                 *)
(* ===================================================================== *)

(** The five patterns of the tracking analyzer are sequences of literal
    characters, single characters of a class, and greedy repetitions of a
    class, one of which may be the capturing group.  [match_here] is the
    backtracking matcher of [re] anchored at the start of the text: it gives
    the number of characters matched and the text of the group. *)

Inductive atom : Type :=
  | Chr (c : ascii)
  | One (cls : ascii -> bool)
  | Star (cls : ascii -> bool)
  | Plus (cls : ascii -> bool)
  | Group (cls : ascii -> bool).

Definition regex : Type := list atom.

Fixpoint lit (s : string) : regex :=
  match s with
  | String c s' => Chr c :: lit s'
  | EmptyString => []
  end.

Fixpoint greedy {R : Type} (cls : ascii -> bool) (k : string -> string -> option R)
    (taken s : string) : option R :=
  match s with
  | String c s' =>
      if cls c then
        match greedy cls k (taken +:+ String c EmptyString) s' with
        | Some r => Some r
        | None => k taken s
        end
      else k taken s
  | EmptyString => k taken s
  end.

Fixpoint match_here (re : regex) (s : string) (n : nat) (cap : option string)
    : option (nat * option string) :=
  match re with
  | [] => Some (n, cap)
  | Chr c :: re' =>
      match s with
      | String c' s' => if Ascii.eqb c c' then match_here re' s' (S n) cap else None
      | EmptyString => None
      end
  | One cls :: re' =>
      match s with
      | String c' s' => if cls c' then match_here re' s' (S n) cap else None
      | EmptyString => None
      end
  | Star cls :: re' =>
      greedy cls (fun taken rest => match_here re' rest (n + String.length taken) cap)
        EmptyString s
  | Plus cls :: re' =>
      match s with
      | String c' s' =>
          if cls c' then
            greedy cls (fun taken rest => match_here re' rest (n + String.length taken) cap)
              (String c' EmptyString) s'
          else None
      | EmptyString => None
      end
  | Group cls :: re' =>
      match s with
      | String c' s' =>
          if cls c' then
            greedy cls
              (fun taken rest => match_here re' rest (n + String.length taken) (Some taken))
              (String c' EmptyString) s'
          else None
      | EmptyString => None
      end
  end.

(** What [re.findall] reports for one match: the group if the pattern has
    one, the whole match otherwise. *)
Definition match_result (s : string) (m : nat * option string) : string :=
  match m with
  | (_, Some g) => g
  | (n, None) => substring 0 n s
  end.

(** [findall_from re s skip]: the matches in [s], left to right, not
    overlapping; [skip] characters of [s] belong to the previous match. *)
Fixpoint findall_from (re : regex) (s : string) (skip : nat) : list string :=
  match s with
  | EmptyString =>
      match skip, match_here re s 0 None with
      | O, Some m => [match_result s m]
      | _, _ => []
      end
  | String _ s' =>
      match skip with
      | S k => findall_from re s' k
      | O =>
          match match_here re s 0 None with
          | Some m => match_result s m :: findall_from re s' (fst m - 1)
          | None => findall_from re s' 0
          end
      end
  end.

(** [re.findall(re, s)] *)
Definition re_findall (re : regex) (s : string) : list string := findall_from re s 0.

(** The pattern matches somewhere in the text. *)
Fixpoint re_search (re : regex) (s : string) : bool :=
  match match_here re s 0 None with
  | Some _ => true
  | None =>
      match s with
      | String _ s' => re_search re s'
      | EmptyString => false
      end
  end.

Definition squote : ascii := ascii_of_nat 39.
Definition dquote : ascii := ascii_of_nat 34.

Definition cls_quote (c : ascii) : bool := Ascii.eqb c squote || Ascii.eqb c dquote.
Definition cls_upper_digit (c : ascii) : bool := py_isupper_ascii c || py_isdigit c.

(** r'GTM-[A-Z0-9]+' *)
Definition gtm_pattern : regex := lit "GTM-" ++ [Plus cls_upper_digit].
(** r'G-[A-Z0-9]+' *)
Definition ga4_pattern : regex := lit "G-" ++ [Plus cls_upper_digit].
(** r'AW-[0-9]+' *)
Definition gads_pattern : regex := lit "AW-" ++ [Plus py_isdigit].
(** r'fbq\s*\(\s*[\'"]init[\'"]\s*,\s*[\'"](\d+)[\'"]\s*\)' *)
Definition fb_pixel_pattern : regex :=
  lit "fbq" ++ [Star py_isspace; Chr "("; Star py_isspace; One cls_quote] ++ lit "init"
  ++ [One cls_quote; Star py_isspace; Chr ","; Star py_isspace; One cls_quote;
      Group py_isdigit; One cls_quote; Star py_isspace; Chr ")"].
(** r'ttq\.load\s*\(\s*[\'"]([A-Z0-9]+)[\'"]\s*\)' *)
Definition tiktok_pattern : regex :=
  lit "ttq.load" ++ [Star py_isspace; Chr "("; Star py_isspace; One cls_quote;
                     Group cls_upper_digit; One cls_quote; Star py_isspace; Chr ")"].

(* ===================================================================== *)
(** * The parsed document                                                 *)
(* ===================================================================== *)

(** The tree the markup parser returns: text nodes and tags with their
    attributes (one value per name) and children. *)

Inductive node : Type :=
  | Text (s : string)
  | Tag (name : string) (attrs : list (string * string)) (children : list node).

Definition document : Type := list node.

(** A node followed by everything below it, in document order. *)
Fixpoint descendants (n : node) : list node :=
  n :: match n with
       | Text _ => []
       | Tag _ _ cs =>
           (fix go (l : list node) : list node :=
              match l with
              | [] => []
              | c :: l' => descendants c ++ go l'
              end) cs
       end.

Definition all_nodes (doc : document) : list node := flat_map descendants doc.

(** [tag.get_text()]: the text below the tag, concatenated. *)
Fixpoint get_text (n : node) : string :=
  match n with
  | Text s => s
  | Tag _ _ cs =>
      (fix go (l : list node) : string :=
         match l with
         | [] => EmptyString
         | c :: l' => get_text c +:+ go l'
         end) cs
  end.

Fixpoint assoc (k : string) (l : list (string * string)) : option string :=
  match l with
  | [] => None
  | (k', v) :: l' => if String.eqb k k' then Some v else assoc k l'
  end.

(** [tag.get(name)] *)
Definition tag_get (n : node) (name : string) : option string :=
  match n with
  | Tag _ attrs _ => assoc name attrs
  | Text _ => None
  end.

Definition tag_name (n : node) : option string :=
  match n with
  | Tag name _ _ => Some name
  | Text _ => None
  end.

(** The attributes whose value the parser splits into a list of tokens. *)
Definition multi_valued (tag attr : string) : bool :=
  existsb (String.eqb attr) ["class"; "accesskey"; "dropzone"]
  || existsb (fun '(t, a) => String.eqb tag t && String.eqb attr a)
       [("a", "rel"); ("a", "rev"); ("link", "rel"); ("link", "rev");
        ("td", "headers"); ("th", "headers"); ("form", "accept-charset");
        ("object", "archive"); ("area", "rel"); ("icon", "sizes");
        ("iframe", "sandbox"); ("output", "for")].

Fixpoint split_from (cur : string) (s : string) : list string :=
  match s with
  | EmptyString => match cur with EmptyString => [] | _ => [cur] end
  | String c s' =>
      if py_isspace c then
        match cur with
        | EmptyString => split_from EmptyString s'
        | _ => cur :: split_from EmptyString s'
        end
      else split_from (cur +:+ String c EmptyString) s'
  end.

(** [s.split()]: the whitespace-separated tokens. *)
Definition py_split (s : string) : list string := split_from EmptyString s.

(** What a search asks of one attribute: a given value, or mere presence
    ([src=True]). *)
Inductive attr_req : Type :=
  | Is (v : string)
  | Present.

Definition attr_ok (tag : string) (attrs : list (string * string))
    (q : string * attr_req) : bool :=
  match assoc (fst q) attrs, snd q with
  | None, _ => false
  | Some _, Present => true
  | Some raw, Is v =>
      if multi_valued tag (fst q) then
        existsb (String.eqb v) (py_split raw) || String.eqb (py_join " " (py_split raw)) v
      else String.eqb raw v
  end.

Definition tag_matches (name : string) (query : list (string * attr_req)) (n : node) : bool :=
  match n with
  | Tag name' attrs _ => String.eqb name name' && forallb (attr_ok name' attrs) query
  | Text _ => false
  end.

(** [soup.find_all(name, attrs=query)] *)
Definition find_all (doc : document) (name : string) (query : list (string * attr_req))
    : list node :=
  filter (fun n => tag_matches name query n = true) (all_nodes doc).

(** [soup.find(name, attrs=query)] *)
Definition find (doc : document) (name : string) (query : list (string * attr_req))
    : option node :=
  head (find_all doc name query).

(* ===================================================================== *)
(** * Data model                                                          *)
(* ===================================================================== *)

Inductive severity : Type := Error | Warning.
Inductive category : Type := Seo | Tracking | Technical | MetaAds.

#[global] Instance severity_eq_dec : EqDecision severity.
Proof. solve_decision. Defined.
#[global] Instance category_eq_dec : EqDecision category.
Proof. solve_decision. Defined.

(** An entry of [results['issues']]; [i_type] is the key 'type'. *)
Record issue : Type := Issue {
  i_type : severity;
  i_category : category;
  i_title : string;
  i_description : string;
  i_impact : string
}.

(** An entry of [results['opportunities']]. *)
Record opportunity : Type := Opportunity {
  o_category : string;
  o_title : string;
  o_description : string;
  o_potential : string
}.

Record seo_findings : Type := SeoFindings {
  seo_title : option string;
  seo_title_length : nat;
  seo_meta_description : option string;
  seo_meta_description_length : nat;
  seo_h1_count : nat;
  seo_h1_texts : list string;
  seo_total_images : nat;
  seo_images_without_alt : nat;
  seo_images_alt_percentage : Z;
  seo_canonical : option string;
  seo_og_tags : list (string * bool);
  seo_has_structured_data : bool;
  seo_structured_data_count : nat
}.

(** One provider of the tracking findings: the flag and the set of ids. *)
Record detection : Type := Detection {
  detected : bool;
  ids : gset string
}.

Record tracking_findings : Type := TrackingFindings {
  trk_gtm : detection;
  trk_ga4 : detection;
  trk_google_ads : detection;
  trk_facebook_pixel : detection;
  trk_facebook_events : list string;
  trk_tiktok_pixel : detection;
  trk_enhanced_conversions : bool
}.

Record technical_findings : Type := TechnicalFindings {
  tech_mobile_viewport : bool;
  tech_https : bool;
  tech_lazy_loading : bool;
  tech_lazy_loading_count : nat;
  tech_scripts_count : nat;
  tech_minified_scripts : nat;
  tech_external_scripts : nat;
  tech_stylesheets_count : nat;
  tech_cookie_consent : bool
}.

(** [active_ads] is the number 0 or the string 'detected'. *)
Record meta_ads_findings : Type := MetaAdsFindings {
  ads_checked : bool;
  ads_active_ads : Z + string;
  ads_ad_formats : list string;
  ads_notes : list string
}.

(** [self.results].  The four findings start as the empty dict ([None]),
    the key 'error' is absent ([None]) unless the fetch fails. *)
Record results : Type := Results {
  res_url : string;
  res_domain : string;
  res_platform : option string;
  res_seo : option seo_findings;
  res_technical : option technical_findings;
  res_tracking : option tracking_findings;
  res_meta_ads : option meta_ads_findings;
  res_scores : gmap string Z;
  res_issues : list issue;
  res_opportunities : list opportunity;
  res_error : option string
}.

(** The analyzer object. *)
Record analyzer : Type := Analyzer {
  url : string;
  domain : string;
  html : option string;
  soup : option document;
  self_results : results
}.

Definition with_results (a : analyzer) (r : results) : analyzer :=
  Analyzer (url a) (domain a) (html a) (soup a) r.

Definition set_platform (p : string) (r : results) : results :=
  Results (res_url r) (res_domain r) (Some p) (res_seo r) (res_technical r) (res_tracking r)
    (res_meta_ads r) (res_scores r) (res_issues r) (res_opportunities r) (res_error r).

Definition set_seo (f : seo_findings) (r : results) : results :=
  Results (res_url r) (res_domain r) (res_platform r) (Some f) (res_technical r)
    (res_tracking r) (res_meta_ads r) (res_scores r) (res_issues r) (res_opportunities r)
    (res_error r).

Definition set_technical (f : technical_findings) (r : results) : results :=
  Results (res_url r) (res_domain r) (res_platform r) (res_seo r) (Some f) (res_tracking r)
    (res_meta_ads r) (res_scores r) (res_issues r) (res_opportunities r) (res_error r).

Definition set_tracking (f : tracking_findings) (r : results) : results :=
  Results (res_url r) (res_domain r) (res_platform r) (res_seo r) (res_technical r) (Some f)
    (res_meta_ads r) (res_scores r) (res_issues r) (res_opportunities r) (res_error r).

Definition set_meta_ads (f : meta_ads_findings) (r : results) : results :=
  Results (res_url r) (res_domain r) (res_platform r) (res_seo r) (res_technical r)
    (res_tracking r) (Some f) (res_scores r) (res_issues r) (res_opportunities r)
    (res_error r).

Definition set_score (k : string) (v : Z) (r : results) : results :=
  Results (res_url r) (res_domain r) (res_platform r) (res_seo r) (res_technical r)
    (res_tracking r) (res_meta_ads r) (<[k := v]> (res_scores r)) (res_issues r)
    (res_opportunities r) (res_error r).

Definition extend_issues (new : list issue) (r : results) : results :=
  Results (res_url r) (res_domain r) (res_platform r) (res_seo r) (res_technical r)
    (res_tracking r) (res_meta_ads r) (res_scores r) (res_issues r ++ new)
    (res_opportunities r) (res_error r).

Definition set_opportunities (l : list opportunity) (r : results) : results :=
  Results (res_url r) (res_domain r) (res_platform r) (res_seo r) (res_technical r)
    (res_tracking r) (res_meta_ads r) (res_scores r) (res_issues r) l (res_error r).

Definition set_error (e : string) (r : results) : results :=
  Results (res_url r) (res_domain r) (res_platform r) (res_seo r) (res_technical r)
    (res_tracking r) (res_meta_ads r) (res_scores r) (res_issues r) (res_opportunities r)
    (Some e).

(** The loop that ends each analyzer: start at 100, subtract [pe] for an
    error and [pw] for a warning of the analyzer's category, clamp. *)
Definition category_score (c : category) (pe pw : Z) (issues : list issue) : Z :=
  let score :=
    fold_left
      (fun score i =>
         if decide (i_category i = c)
         then score - (if decide (i_type i = Error) then pe else pw)
         else score)
      issues 100 in
  Z.max 0 (Z.min 100 score).

(* ===================================================================== *)
(** * The analyzer                                                        *)
(* ===================================================================== *)

(** [WebsiteAnalyzer(url)].  [netloc] stands for [urlparse(_).netloc] of the
    standard library. *)
Definition WebsiteAnalyzer (netloc : string -> string) (u : string) : analyzer :=
  let self_url := if py_startswith "http" u then u else "https://" +:+ u in
  let self_domain := netloc self_url in
  Analyzer self_url self_domain None None
    (Results self_url self_domain None None None None None ∅ [] [] None).

(** What [requests.get], [raise_for_status] and [BeautifulSoup] do in one
    call of [crawl]: one of the first two raises, or the parser raises after
    the text was stored, or the page is fetched and parsed. *)
Inductive outcome : Type :=
  | FetchRaised (e : string)
  | ParseRaised (text : string) (e : string)
  | Fetched (text : string) (tree : document).

Definition crawl (o : outcome) (a : analyzer) : analyzer * bool :=
  match o with
  | Fetched text tree =>
      (Analyzer (url a) (domain a) (Some text) (Some tree) (self_results a), true)
  | ParseRaised text e =>
      (Analyzer (url a) (domain a) (Some text) (soup a) (set_error e (self_results a)), false)
  | FetchRaised e => (with_results a (set_error e (self_results a)), false)
  end.

(** ** Platform detection *)

Definition platforms : list (string * list string) :=
  [("merchantpro", ["merchantpro"; "mp-"]);
   ("gomag", ["gomag"; "gomag.ro"]);
   ("shopify", ["shopify"; "cdn.shopify"]);
   ("woocommerce", ["woocommerce"; "wp-content/plugins/woocommerce"]);
   ("magento", ["magento"; "mage"]);
   ("prestashop", ["prestashop"; "presta"]);
   ("opencart", ["opencart"]);
   ("vtex", ["vtex"])].

Definition has_signature (html_lower : string) (entry : string * list string) : bool :=
  existsb (fun sig => py_in sig html_lower) (snd entry).

(** The two nested loops: the first entry one of whose signatures occurs. *)
Fixpoint scan_platforms (table : list (string * list string)) (html_lower : string)
    : option string :=
  match table with
  | [] => None
  | entry :: table' =>
      if has_signature html_lower entry then Some (fst entry)
      else scan_platforms table' html_lower
  end.

Definition html_lower (a : analyzer) : string :=
  match html a with
  | Some (String c s) => py_lower (String c s)
  | _ => EmptyString
  end.

(** [detect_platform]: the new state and the value returned. *)
Definition detect_platform (a : analyzer) : analyzer * option string :=
  match scan_platforms platforms (html_lower a) with
  | Some platform =>
      (with_results a (set_platform (py_capitalize platform) (self_results a)), Some platform)
  | None => (with_results a (set_platform "Unknown" (self_results a)), None)
  end.

(** ** SEO *)

(** [len(x) if x else 0] *)
Definition len_if (o : option string) : nat :=
  if truthy o then String.length (default EmptyString o) else 0%nat.

Definition find_title (doc : document) : option string :=
  match find doc "title" [] with
  | Some title_tag => Some (py_strip (get_text title_tag))
  | None => None
  end.

Definition title_issues (title : option string) (title_length : nat) : list issue :=
  if negb (truthy title) then
    [Issue Error Seo "Title tag lipsă"
       "Pagina nu are un title tag definit. Acesta este esențial pentru SEO."
       "Afectează semnificativ vizibilitatea în motoarele de căutare"]
  else if (title_length <? 30)%nat then
    [Issue Warning Seo "Title tag prea scurt"
       ("Title-ul are doar " +:+ pretty title_length
        +:+ " caractere. Recomandat: 50-60 caractere.")
       "CTR mai mic în rezultatele căutării"]
  else if (60 <? title_length)%nat then
    [Issue Warning Seo "Title tag prea lung"
       ("Title-ul are " +:+ pretty title_length
        +:+ " caractere și va fi trunchiat în Google.")
       "Mesajul cheie poate fi tăiat"]
  else [].

Definition find_meta_description (doc : document) : option string :=
  match find doc "meta" [("name", Is "description")] with
  | Some meta_desc =>
      if truthy (tag_get meta_desc "content")
      then option_map py_strip (tag_get meta_desc "content")
      else None
  | None => None
  end.

Definition meta_description_issues (desc : option string) (desc_length : nat) : list issue :=
  if negb (truthy desc) then
    [Issue Error Seo "Meta description lipsă"
       "Pagina nu are meta description. Google va genera automat una din conținut."
       "+15-25% CTR potențial cu o descriere optimizată"]
  else if (desc_length <? 120)%nat then
    [Issue Warning Seo "Meta description prea scurtă"
       ("Descrierea are doar " +:+ pretty desc_length
        +:+ " caractere. Recomandat: 150-160.")
       "Nu profiti de tot spațiul disponibil pentru convingere"]
  else [].

Definition h1_issues (h1_count : nat) : list issue :=
  if (h1_count =? 0)%nat then
    [Issue Error Seo "H1 tag lipsă"
       "Pagina nu are un heading H1. Acesta este important pentru structura SEO."
       "Afectează înțelegerea paginii de către Google"]
  else if (1 <? h1_count)%nat then
    [Issue Warning Seo ("Multiple H1 tags (" +:+ pretty h1_count +:+ ")")
       "Pagina are mai multe H1-uri. Recomandat: un singur H1 per pagină."
       "Poate dilua relevanța pentru keyword-ul principal"]
  else [].

(** [not img.get('alt') or img.get('alt').strip() == ''] *)
Definition without_alt (img : node) : bool :=
  negb (truthy (tag_get img "alt"))
  || match tag_get img "alt" with
     | Some alt => String.eqb (py_strip alt) EmptyString
     | None => false
     end.

(** [round(missing / max(total, 1) * 100)] *)
Definition missing_alt_pct (missing total : nat) : Z :=
  py_round (fmul (int_truediv (Z.of_nat missing) (Z.max (Z.of_nat total) 1))
                 (float_of_int 100)).

Definition image_issues (images_without_alt total_images : nat) : list issue :=
  if (0 <? images_without_alt)%nat then
    let pct := missing_alt_pct images_without_alt total_images in
    [Issue (if pct <? 50 then Warning else Error) Seo
       (pretty images_without_alt +:+ " imagini fără ALT (" +:+ pretty pct +:+ "%)")
       "Imaginile fără text alternativ nu sunt indexate în Google Images."
       "Pierzi trafic organic din Google Images"]
  else [].

Definition find_canonical (doc : document) : option string :=
  match find doc "link" [("rel", Is "canonical")] with
  | Some canonical =>
      if truthy (tag_get canonical "href") then tag_get canonical "href" else None
  | None => None
  end.

Definition canonical_issues (canonical : option string) : list issue :=
  if negb (truthy canonical) then
    [Issue Warning Seo "Canonical URL lipsă"
       "Nu am detectat un tag canonical. Risc de conținut duplicat."
       "Poate cauza probleme de indexare"]
  else [].

Definition find_og_tags (doc : document) : list (string * bool) :=
  [("title", bool_decide (is_Some (find doc "meta" [("property", Is "og:title")])));
   ("description", bool_decide (is_Some (find doc "meta" [("property", Is "og:description")])));
   ("image", bool_decide (is_Some (find doc "meta" [("property", Is "og:image")])))].

Definition og_issues (og_tags : list (string * bool)) : list issue :=
  let missing_og := map fst (List.filter (fun kv => negb (snd kv)) og_tags) in
  match missing_og with
  | [] => []
  | _ =>
      [Issue Warning Seo "Open Graph tags incomplete"
         ("Lipsesc: " +:+ py_join ", " missing_og
          +:+ ". Afectează share-urile pe social media.")
         "Link-urile partajate vor arăta mai puțin atrăgător"]
  end.

Definition structured_data_issues (has_structured_data : bool) : list issue :=
  if negb has_structured_data then
    [Issue Warning Seo "Structured data (Schema.org) lipsă"
       "Nu am detectat markup JSON-LD. Pierzi rich snippets în Google."
       "Fără rating stars, preț, disponibilitate în rezultate"]
  else [].

Definition images_without_alt (doc : document) : list node :=
  List.filter without_alt (find_all doc "img" []).

Definition seo_facts (doc : document) : seo_findings :=
  let title := find_title doc in
  let meta_description := find_meta_description doc in
  let h1_tags := find_all doc "h1" [] in
  let images := find_all doc "img" [] in
  let missing := images_without_alt doc in
  let schema_scripts := find_all doc "script" [("type", Is "application/ld+json")] in
  SeoFindings
    title (len_if title)
    meta_description (len_if meta_description)
    (length h1_tags) (map (fun h1 => py_strip (get_text h1)) (take 3 h1_tags))
    (length images) (length missing)
    (py_round (fmul (fsub (float_of_int 1)
                          (int_truediv (Z.of_nat (length missing))
                                       (Z.max (Z.of_nat (length images)) 1)))
                    (float_of_int 100)))
    (find_canonical doc)
    (find_og_tags doc)
    (0 <? length schema_scripts)%nat (length schema_scripts).

(** The issues of [analyze_seo], in the order the rules append them. *)
Definition seo_issues (doc : document) : list issue :=
  let seo := seo_facts doc in
  title_issues (seo_title seo) (seo_title_length seo)
  ++ meta_description_issues (seo_meta_description seo) (seo_meta_description_length seo)
  ++ h1_issues (seo_h1_count seo)
  ++ image_issues (seo_images_without_alt seo) (seo_total_images seo)
  ++ canonical_issues (seo_canonical seo)
  ++ og_issues (seo_og_tags seo)
  ++ structured_data_issues (seo_has_structured_data seo).

(** [analyze_seo]; [None] is the exception raised when no document was
    parsed. *)
Definition analyze_seo (a : analyzer) : option analyzer :=
  match soup a with
  | None => None
  | Some doc =>
      let issues := seo_issues doc in
      Some (with_results a
              (set_score "seo" (category_score Seo 15 8 issues)
                 (extend_issues issues (set_seo (seo_facts doc) (self_results a)))))
  end.

(** ** Tracking *)

(** One provider: [{'detected': len(matches) > 0, 'ids': list(set(matches))}] *)
Definition detect (re : regex) (text : string) : detection :=
  let matches := re_findall re text in
  Detection (0 <? length matches)%nat (list_to_set matches).

Definition fb_event_names : list string :=
  ["Purchase"; "AddToCart"; "ViewContent"; "InitiateCheckout"; "AddPaymentInfo"].

Definition event_occurs (text event : string) : bool :=
  py_in (String squote event +:+ String squote EmptyString) text
  || py_in (String dquote event +:+ String dquote EmptyString) text.

Definition find_fb_events (text : string) : list string :=
  List.filter (event_occurs text) fb_event_names.

Definition tracking_facts (text : string) : tracking_findings :=
  TrackingFindings
    (detect gtm_pattern text)
    (detect ga4_pattern text)
    (detect gads_pattern text)
    (detect fb_pixel_pattern text)
    (find_fb_events text)
    (detect tiktok_pattern text)
    (py_in "enhanced_conversion" (py_lower text) || py_in "user_data" (py_lower text)).

(** [x or "niciunul"] *)
Definition or_none (s : string) : string :=
  match s with
  | EmptyString => "niciunul"
  | _ => s
  end.

Definition gtm_issues (t : tracking_findings) : list issue :=
  if negb (detected (trk_gtm t)) then
    [Issue Error Tracking "Google Tag Manager nedetectat"
       "Nu am găsit GTM instalat. Fără el, nu poți track-ui corect conversiile."
       "Pierzi date esențiale pentru optimizarea campaniilor"]
  else [].

Definition ga4_issues (t : tracking_findings) : list issue :=
  if negb (detected (trk_ga4 t)) then
    [Issue Error Tracking "Google Analytics 4 nedetectat"
       "Nu am găsit GA4 instalat. Pierzi insight-uri importante despre trafic."
       "Nu poți analiza comportamentul vizitatorilor"]
  else [].

Definition google_ads_issues (t : tracking_findings) : list issue :=
  if negb (detected (trk_google_ads t)) then
    [Issue Error Tracking "Google Ads Conversion Tag absent"
       "Nu am detectat tag de conversie Google Ads. Campaniile nu pot fi optimizate."
       "ROAS real necunoscut, optimizare imposibilă"]
  else [].

Definition facebook_issues (t : tracking_findings) : list issue :=
  let fb_events := trk_facebook_events t in
  if negb (detected (trk_facebook_pixel t)) then
    [Issue Error Tracking "Facebook Pixel nedetectat"
       "Nu am găsit Facebook Pixel. Nu poți rula campanii Meta Ads eficient."
       "Fără remarketing și fără optimizare pentru conversii"]
  else if (length fb_events <? 3)%nat then
    [Issue Warning Tracking "Facebook Pixel incomplet configurat"
       ("Pixel detectat dar doar " +:+ pretty (length fb_events)
        +:+ " evenimente configurate: " +:+ or_none (py_join ", " fb_events) +:+ ".")
       "Optimizarea campaniilor Meta este limitată"]
  else [].

(** The issues of [analyze_tracking], in the order the rules append them. *)
Definition tracking_issues (text : string) : list issue :=
  let t := tracking_facts text in
  gtm_issues t ++ ga4_issues t ++ google_ads_issues t ++ facebook_issues t.

(** [analyze_tracking]; [None] is the exception [re.findall] raises when no
    text was fetched. *)
Definition analyze_tracking (a : analyzer) : option analyzer :=
  match html a with
  | None => None
  | Some text =>
      let issues := tracking_issues text in
      Some (with_results a
              (set_score "tracking" (category_score Tracking 18 10 issues)
                 (extend_issues issues (set_tracking (tracking_facts text) (self_results a)))))
  end.

(** ** Technical *)

(** [s.get('src', '')] *)
Definition src_of (s : node) : string := default EmptyString (tag_get s "src").

(** [src.startswith('http') and self.domain not in src] *)
Definition is_external (self_domain : string) (s : node) : bool :=
  py_startswith "http" (src_of s) && negb (py_in self_domain (src_of s)).

Definition external_scripts (self_domain : string) (doc : document) : list node :=
  List.filter (is_external self_domain) (find_all doc "script" [("src", Present)]).

Definition cookie_patterns : list string := ["cookie"; "gdpr"; "consent"; "privacy"].

Definition technical_facts (self_url self_domain text : string) (doc : document)
    : technical_findings :=
  let lazy_images := find_all doc "img" [("loading", Is "lazy")] in
  let scripts := find_all doc "script" [("src", Present)] in
  let minified_scripts := List.filter (fun s => py_in ".min." (src_of s)) scripts in
  TechnicalFindings
    (bool_decide (is_Some (find doc "meta" [("name", Is "viewport")])))
    (py_startswith "https" self_url)
    (0 <? length lazy_images)%nat (length lazy_images)
    (length scripts) (length minified_scripts)
    (length (external_scripts self_domain doc))
    (length (find_all doc "link" [("rel", Is "stylesheet")]))
    (existsb (fun p => py_in p (py_lower text)) cookie_patterns).

Definition viewport_issues (t : technical_findings) : list issue :=
  if negb (tech_mobile_viewport t) then
    [Issue Error Technical "Viewport meta tag lipsă"
       "Site-ul nu este optimizat pentru mobile."
       "Experiență proastă pe mobil, afectează și SEO"]
  else [].

Definition https_issues (t : technical_findings) : list issue :=
  if negb (tech_https t) then
    [Issue Error Technical "Site-ul nu folosește HTTPS"
       "Conexiunea nu este securizată. Google penalizează site-urile HTTP."
       "Afectează încrederea și ranking-ul SEO"]
  else [].

Definition external_scripts_issues (t : technical_findings) : list issue :=
  if (15 <? tech_external_scripts t)%nat then
    [Issue Warning Technical
       ("Multe scripturi externe (" +:+ pretty (tech_external_scripts t) +:+ ")")
       "Prea multe resurse externe încetinesc site-ul."
       "Page speed afectat, bounce rate mai mare"]
  else [].

Definition cookie_issues (t : technical_findings) : list issue :=
  if negb (tech_cookie_consent t) then
    [Issue Warning Technical "Cookie consent nedetectat"
       "Nu am găsit un sistem de consimțământ pentru cookies."
       "Posibile probleme GDPR"]
  else [].

(** The issues of [analyze_technical], in the order the rules append them. *)
Definition technical_issues (self_url self_domain text : string) (doc : document)
    : list issue :=
  let t := technical_facts self_url self_domain text doc in
  viewport_issues t ++ https_issues t ++ external_scripts_issues t ++ cookie_issues t.

(** [analyze_technical]; [None] is the exception raised when the document
    or the text is missing. *)
Definition analyze_technical (a : analyzer) : option analyzer :=
  match soup a, html a with
  | Some doc, Some text =>
      let issues := technical_issues (url a) (domain a) text doc in
      Some (with_results a
              (set_score "technical" (category_score Technical 15 8 issues)
                 (extend_issues issues
                    (set_technical (technical_facts (url a) (domain a) text doc)
                       (self_results a)))))
  | _, _ => None
  end.

(** ** Meta Ads *)

Definition meta_ads_audit : opportunity :=
  Opportunity "meta_ads" "Audit complet Meta Ads"
    "Pentru o analiză completă a reclamelor active, contactează-ne pentru un audit gratuit al contului Meta Business."
    "Optimizări de 15-30% pe CPA sunt obișnuite".

Definition meta_ads_unknown : issue :=
  Issue Warning MetaAds "Prezența pe Meta Ads necunoscută"
    "Fără Facebook Pixel, nu putem verifica activitatea publicitară."
    "Oportunitate pierdută pe cel mai mare canal social".

(** [results.get('tracking', {}).get('facebook_pixel', {}).get('detected', False)] *)
Definition has_fb_pixel (r : results) : bool :=
  match res_tracking r with
  | Some t => detected (trk_facebook_pixel t)
  | None => false
  end.

Definition check_meta_ads_library (a : analyzer) : analyzer :=
  let r := self_results a in
  if has_fb_pixel r then
    with_results a
      (set_score "meta_ads" 70
         (extend_issues []
            (set_meta_ads
               (MetaAdsFindings true (inr "detected") []
                  ["Facebook Pixel activ - probabil rulează campanii Meta"])
               (set_opportunities (res_opportunities r ++ [meta_ads_audit]) r))))
  else
    with_results a
      (set_score "meta_ads" 40
         (extend_issues [meta_ads_unknown]
            (set_meta_ads (MetaAdsFindings true (inl 0) [] []) r))).

(** ** Overall score *)

Definition weights : list (string * float) :=
  [("seo", f0_30); ("tracking", f0_35); ("technical", f0_20); ("meta_ads", f0_15)].

(** [sum(scores.get(k, 50) * w for k, w in weights.items())] *)
Definition weighted_sum (scores : gmap string Z) : float :=
  py_sum (map (fun kw => fmul (float_of_int (default 50 (scores !! fst kw))) (snd kw)) weights).

Definition calculate_overall_score (a : analyzer) : analyzer :=
  let scores := res_scores (self_results a) in
  if decide (scores = ∅) then with_results a (set_score "overall" 0 (self_results a))
  else with_results a (set_score "overall" (py_round (weighted_sum scores)) (self_results a)).

(** ** Opportunities *)

Definition google_ads_setup : opportunity :=
  Opportunity "google_ads" "Setup Google Ads Conversion Tracking"
    "Cu tracking corect, poți optimiza campaniile pentru ROAS real."
    "+25-40% eficiență pe bugetul de ads".

Definition seo_on_page : opportunity :=
  Opportunity "seo" "Optimizare SEO On-Page"
    "Rezolvarea problemelor SEO detectate poate crește traficul organic."
    "+30-50% trafic organic în 3-6 luni".

Definition platform_specific (platform : string) : opportunity :=
  Opportunity "platform" ("Optimizare specifică " +:+ platform)
    ("Avem experiență directă cu " +:+ platform +:+ " și știm exact ce funcționează.")
    "Implementare rapidă, rezultate măsurabile".

Definition recognized_platforms : list string := ["Merchantpro"; "Gomag"; "Shopify"].

(** [results['tracking'].get('google_ads', {}).get('detected')] *)
Definition google_ads_detected (r : results) : bool :=
  match res_tracking r with
  | Some t => detected (trk_google_ads t)
  | None => false
  end.

Definition is_recognized (p : option string) : bool :=
  match p with
  | Some name => existsb (String.eqb name) recognized_platforms
  | None => false
  end.

Definition generate_opportunities (a : analyzer) : analyzer :=
  let r := self_results a in
  let opportunities := res_opportunities r in
  let opportunities :=
    if negb (google_ads_detected r) then opportunities ++ [google_ads_setup]
    else opportunities in
  let seo_issues := List.filter (fun i => bool_decide (i_category i = Seo)) (res_issues r) in
  let opportunities :=
    if (2 <=? length seo_issues)%nat then opportunities ++ [seo_on_page]
    else opportunities in
  let opportunities :=
    if is_recognized (res_platform r)
    then opportunities ++ [platform_specific (default EmptyString (res_platform r))]
    else opportunities in
  with_results a (set_opportunities opportunities r).

(** ** The pipeline *)

(** [run_full_analysis]: the final state, whose [self_results] is the value
    returned; [None] is an exception that escapes. *)
Definition run_full_analysis (o : outcome) (a : analyzer) : option analyzer :=
  let (a, fetched) := crawl o a in
  if negb fetched then Some a
  else
    let (a, _) := detect_platform a in
    a ← analyze_seo a;
    a ← analyze_tracking a;
    a ← analyze_technical a;
    let a := check_meta_ads_library a in
    let a := calculate_overall_score a in
    Some (generate_opportunities a).

(* ===================================================================== *)
(** * Definitions used by the statements and proofs                       *)
(* ===================================================================== *)

(** The formula of the specification for the overall score,
    [round(seo*0.30 + tracking*0.35 + technical*0.20 + meta_ads*0.15)],
    read as the Python expression it is written as. *)
Definition overall_formula (seo tracking technical meta_ads : Z) : Z :=
  py_round
    (fadd (fadd (fadd (fmul (float_of_int seo) f0_30)
                      (fmul (float_of_int tracking) f0_35))
                (fmul (float_of_int technical) f0_20))
          (fmul (float_of_int meta_ads) f0_15)).

Definition clamp (z : Z) : Z := Z.max 0 (Z.min 100 z).

(** The scores an analyzer can reach with at most [n] issues: 100 minus
    [pe] per error and [pw] per warning, clamped. *)
Definition score_values (pe pw : Z) (n : nat) : list Z :=
  e ← seq 0 (S n);
  w ← seq 0 (S n - e);
  [clamp (100 - pe * Z.of_nat e - pw * Z.of_nat w)].

Definition errors_of (c : category) (issues : list issue) : list issue :=
  List.filter (fun i => bool_decide (i_category i = c) && bool_decide (i_type i = Error)) issues.

Definition warnings_of (c : category) (issues : list issue) : list issue :=
  List.filter (fun i => bool_decide (i_category i = c) && negb (bool_decide (i_type i = Error)))
    issues.

(** An overall score Python can compute and that lies in 0..100. *)
Definition overall_ok (x : float) : bool :=
  is_finite x && (0 <=? py_round x) && (py_round x <=? 100).

Definition products (w : float) (vs : list Z) : list float :=
  map (fun v => fmul (float_of_int v) w) vs.

(** Every sum of one product from each list, added from the left as
    [py_sum] does, is [overall_ok]. *)
Definition sums_ok (p1 p2 p3 p4 : list float) : bool :=
  forallb (fun x1 =>
    let s1 := fadd (float_of_int 0) x1 in
    forallb (fun x2 =>
      let s2 := fadd s1 x2 in
      forallb (fun x3 =>
        let s3 := fadd s2 x3 in
        forallb (fun x4 => overall_ok (fadd s3 x4)) p4) p3) p2) p1.

Definition seo_scores : list Z := score_values 15 8 7.
Definition tracking_scores : list Z := score_values 18 10 4.
Definition technical_scores : list Z := score_values 15 8 4.
Definition meta_ads_scores : list Z := [70; 40].

Definition not_negative_zero (x : float) : Prop := x <> S754_zero true.

(* ===================================================================== *)
(** * The specification's wording, and sample inputs                      *)
(* ===================================================================== *)

(** Scores of three categories, the fourth never run. *)
Definition sample_scores : gmap string Z :=
  <["seo" := 31]> (<["tracking" := 90]> (<["technical" := 77]> ∅)).


(** A page with the three Google tags, a Facebook Pixel and three of the
    five events. *)
Definition sample_tracked_text : string :=
  "<script>gtag('config', 'G-XYZ7890'); gtag('config', 'AW-12345');</script>"
  +:+ "<iframe src='https://www.googletagmanager.com/ns.html?id=GTM-ABC123'></iframe>"
  +:+ "<script>fbq('init', '1234567890'); fbq('track', 'ViewContent');"
  +:+ " fbq('track', 'AddToCart'); fbq('track', 'Purchase');</script>".

Definition sample_tracked : analyzer :=
  Analyzer "https://example.com" "example.com" (Some sample_tracked_text) None
    (Results "https://example.com" "example.com" None None None None None ∅ [] [] None).




(** The description that marks the image rule's issue. *)
Definition image_alt_description : string :=
  "Imaginile fără text alternativ nu sunt indexate în Google Images.".

(** The specification's words read literally: an image lacks a non-empty
    alt attribute when the attribute is absent or is the empty string. *)
Definition lacks_nonempty_alt (img : node) : bool :=
  match tag_get img "alt" with
  | None => true
  | Some alt => String.eqb alt EmptyString
  end.

(** A page whose only image has an alt attribute made of one space. *)
Definition sample_blank_alt : document :=
  [Tag "html" [] [Tag "body" [] [Tag "img" [("src", "logo.png"); ("alt", " ")] []]]].

(** A page with one described image and one without alt. *)
Definition sample_half_alt : document :=
  [Tag "html" []
     [Tag "body" []
        [Tag "img" [("src", "a.png"); ("alt", "A")] []; Tag "img" [("src", "b.png")] []]]].

(** The text starts with a decimal digit. *)
Definition digit_headed (s : string) : Prop :=
  exists c rest, s = String c rest /\ py_isdigit c = true.


(** The description that marks the external-scripts issue. *)
Definition external_scripts_description : string :=
  "Prea multe resurse externe încetinesc site-ul.".

Fixpoint skip (n : nat) (s : string) : string :=
  match n, s with
  | S n', String _ s' => skip n' s'
  | _, _ => s
  end.

Fixpoint up_to_path (s : string) : string :=
  match s with
  | String c s' => if char_in [35; 47; 63]%nat c then EmptyString else String c (up_to_path s')
  | EmptyString => EmptyString
  end.

(** The host of an absolute http or https URL: what stands between the
    scheme and the first slash, question mark or hash. *)
Definition url_host (u : string) : option string :=
  if String.prefix "http://" u then Some (up_to_path (skip 7 u))
  else if String.prefix "https://" u then Some (up_to_path (skip 8 u))
  else None.

(** The specification's words read literally: the source is an absolute
    URL on a host other than the target domain. *)
Definition on_other_host (self_domain : string) (s : node) : bool :=
  match url_host (src_of s) with
  | Some host => negb (String.eqb host self_domain)
  | None => false
  end.

(** Sixteen scripts served by another host, whose address names the
    target domain in its query. *)
Definition sample_scripts_naming_domain : document :=
  [Tag "html" []
     [Tag "head" []
        (repeat (Tag "script" [("src", "https://cdn.tracker.io/t.js?site=example.com")] [])
           16)]].

(** Sixteen scripts served by another host. *)
Definition sample_external_scripts : document :=
  [Tag "html" []
     [Tag "head" [] (repeat (Tag "script" [("src", "https://cdn.tracker.io/t.js")] []) 16)]].

(** The specification's words read literally: the input carries a scheme
    when it starts with a scheme name (a letter, then letters, digits or
    one of + - .) followed by "://". *)
Definition is_letter (c : ascii) : bool :=
  let n := nat_of_ascii c in
  ((65 <=? n) && (n <=? 90) || (97 <=? n) && (n <=? 122))%nat.

Definition is_scheme_char (c : ascii) : bool :=
  is_letter c || py_isdigit c || char_in [43; 45; 46]%nat c.

Fixpoint scheme_ends (s : string) : bool :=
  String.prefix "://" s ||
  match s with
  | String c s' => is_scheme_char c && scheme_ends s'
  | EmptyString => false
  end.

Definition carries_scheme (u : string) : bool :=
  match u with
  | String c s => is_letter c && scheme_ends s
  | EmptyString => false
  end.

(** A stand-in for [urlparse(_).netloc] on the sample inputs. *)
Definition sample_netloc (u : string) : string := default EmptyString (url_host u).

(** The error of the title rule for a missing title. *)
Definition title_missing : issue :=
  Issue Error Seo "Title tag lipsă"
    "Pagina nu are un title tag definit. Acesta este esențial pentru SEO."
    "Afectează semnificativ vizibilitatea în motoarele de căutare".

(** A page whose title element holds only whitespace. *)
Definition sample_blank_title : document :=
  [Tag "html" [] [Tag "head" [] [Tag "title" [] [Text "   "]]; Tag "body" [] []]].

(* ===================================================================== *)
(** * The audit report                                                    *)
(* ===================================================================== *)

(** A line feed. *)
Definition nl : string := String (ascii_of_nat 10) EmptyString.

(** The lines of a triple-quoted text, each one ended by a line feed. *)
Fixpoint unlines (l : list string) : string :=
  match l with
  | [] => EmptyString
  | s :: l' => s +:+ nl +:+ unlines l'
  end.

(** [{scores.get(k, 'N/A')}] inside an f-string. *)
Definition show_score (scores : gmap string Z) (k : string) : string :=
  match scores !! k with
  | Some v => pretty v
  | None => "N/A"
  end.

(** [{platform}] inside an f-string.  The results always hold the key
    'platform', so [results.get('platform', 'Unknown')] is its value, and
    the value [None] prints as None. *)
Definition show_platform (p : option string) : string := default "None" p.

(** The first part of the report, up to the heading of the issue list. *)
Definition report_header (r : results) : string :=
  let scores := res_scores r in
  unlines
    [EmptyString;
     "---";
     "Website Snapshot:";
     res_domain r +:+ " | Platform: " +:+ show_platform (res_platform r);
     "Scor general: " +:+ show_score scores "overall" +:+ "/100 | SEO: "
       +:+ show_score scores "seo" +:+ " | Tracking: " +:+ show_score scores "tracking"
       +:+ " | Technical: " +:+ show_score scores "technical";
     EmptyString;
     "Key Growth Gaps:"].

(** One line of the issue list. *)
Definition issue_line (issue : issue) : string :=
  let icon := if decide (i_type issue = Error) then "🔴" else "🟡" in
  "• " +:+ icon +:+ " " +:+ i_title issue +:+ ": " +:+ i_description issue +:+ nl.

(** The closing part of the report, the same for every site. *)
Definition report_footer : string :=
  unlines
    [EmptyString;
     "Revenue Opportunity:";
     "Bazat pe analiza efectuată, estimăm următoarele îmbunătățiri posibile:";
     "• Conversii: +25-40% cu tracking corect și optimizare campanii";
     "• Cost per achiziție: -15-25% prin structuri de campanii eficiente  ";
     "• Trafic organic: +30-50% în 3-6 luni cu SEO fix";
     EmptyString;
     "Next Step:";
     "Ai 15 minute pentru o discuție? Analizăm împreună conturile tale de ads și îți arătăm exact ce putem optimiza.";
     "→ Programează aici: https://fulloutmedia.ro/contact";
     "---"].

(** [generate_audit_report(results)].  The lists of errors and of warnings
    the function builds first are not used afterwards.  Text outside ASCII
    is written in its UTF-8 bytes. *)
Definition generate_audit_report (r : results) : string :=
  let issues := res_issues r in
  let report := report_header r in
  let report :=
    fold_left (fun report issue => report +:+ issue_line issue) (take 5 issues) report in
  report +:+ report_footer.

(* ===================================================================== *)
(** * The HTTP interface (api.py)                                         *)
(* ===================================================================== *)

(** A decoded JSON value; an object is given by its items, each key once. *)
#[local] Unset Elimination Schemes.
Inductive json : Type :=
  | JNull
  | JBool (b : bool)
  | JInt (n : Z)
  | JFloat (x : float)
  | JStr (s : string)
  | JArr (items : list json)
  | JObj (items : list (string * json)).
#[local] Set Elimination Schemes.

(** The name of the Python type of a decoded value. *)
Definition type_name (v : json) : string :=
  match v with
  | JNull => "NoneType"
  | JBool _ => "bool"
  | JInt _ => "int"
  | JFloat _ => "float"
  | JStr _ => "str"
  | JArr _ => "list"
  | JObj _ => "dict"
  end.

(** The truth value of a decoded value, as [not url] tests it. *)
Definition json_truthy (v : json) : bool :=
  match v with
  | JNull => false
  | JBool b => b
  | JInt n => negb (n =? 0)
  | JFloat (S754_zero _) => false
  | JFloat _ => true
  | JStr EmptyString => false
  | JStr _ => true
  | JArr [] => false
  | JArr _ => true
  | JObj [] => false
  | JObj _ => true
  end.

(** [d.get(k)] on the items of a dict. *)
Fixpoint dict_get (k : string) (items : list (string * json)) : json :=
  match items with
  | [] => JNull
  | (k', v) :: items' => if String.eqb k k' then v else dict_get k items'
  end.

(** The text of the AttributeError raised by [v.attr] when the type of [v]
    has no such attribute. *)
Definition no_attribute (v : json) (attr : string) : string :=
  "'" +:+ type_name v +:+ "' object has no attribute '" +:+ attr +:+ "'".

(** What [request.get_json()] does: it raises, or returns the decoded
    body. *)
Inductive request_body : Type :=
  | GetJsonRaised (e : string)
  | GetJsonReturned (data : json).

(** The JSON document of a response: [{'error': msg}], or the results with
    the report stored under the key 'report'. *)
Inductive payload : Type :=
  | ErrorPayload (msg : string)
  | ResultsPayload (r : results) (report : string).

Record response : Type := Response {
  body : payload;
  status : Z
}.

(** [analyze_website()], the handler of POST /api/analyze.
    [urlparse_netloc u] is [urlparse(u).netloc], or the text of the
    exception it raises ([inr]); [o] is what the network does if the page is
    fetched.  Every exception is caught and answered with status 500 and its
    text; [None] stands for an exception escaping from the analysis itself,
    whose text the model of the analysis does not carry. *)
Definition analyze_website (request : request_body)
    (urlparse_netloc : string -> string + string) (o : outcome) : option response :=
  match request with
  | GetJsonRaised e => Some (Response (ErrorPayload e) 500)
  | GetJsonReturned (JObj items) =>
      let url := dict_get "url" items in
      if negb (json_truthy url) then Some (Response (ErrorPayload "URL is required") 400)
      else
        match url with
        | JStr u =>
            match urlparse_netloc (if py_startswith "http" u then u else "https://" +:+ u) with
            | inr e => Some (Response (ErrorPayload e) 500)
            | inl _ =>
                let netloc := fun x => match urlparse_netloc x with
                                       | inl d => d
                                       | inr _ => EmptyString
                                       end in
                analyzer ← run_full_analysis o (WebsiteAnalyzer netloc u);
                let results := self_results analyzer in
                Some (Response (ResultsPayload results (generate_audit_report results)) 200)
            end
        | _ => Some (Response (ErrorPayload (no_attribute url "startswith")) 500)
        end
  | GetJsonReturned data => Some (Response (ErrorPayload (no_attribute data "get")) 500)
  end.

(* ===================================================================== *)
(** * More definitions used by the statements                             *)
(* ===================================================================== *)

(** Every character of the string is in the class. *)
Fixpoint all_chars (cls : ascii -> bool) (s : string) : bool :=
  match s with
  | String c s' => cls c && all_chars cls s'
  | EmptyString => true
  end.

(** The atom is not a capturing group of a class other than [cls]. *)
Definition group_of (cls : ascii -> bool) (a : atom) : Prop :=
  match a with
  | Group c => c = cls
  | _ => True
  end.

(** The pattern has a capturing group. *)
Definition has_group (re : regex) : bool :=
  existsb (fun a => match a with Group _ => true | _ => false end) re.

(** The scores an analyzer can reach with at most [ne] errors among at
    most [n] issues. *)
Definition score_values_upto (pe pw : Z) (ne n : nat) : list Z :=
  e ← seq 0 (S ne);
  w ← seq 0 (S n - e);
  [clamp (100 - pe * Z.of_nat e - pw * Z.of_nat w)].

(** An overall score Python can compute and that lies in [lo..hi]. *)
Definition overall_between (lo hi : Z) (x : float) : bool :=
  is_finite x && (lo <=? py_round x) && (py_round x <=? hi).

(** Every sum of one product from each list, added from the left as
    [py_sum] does, is [overall_between lo hi]. *)
Definition sums_between (lo hi : Z) (p1 p2 p3 p4 : list float) : bool :=
  forallb (fun x1 =>
    let s1 := fadd (float_of_int 0) x1 in
    forallb (fun x2 =>
      let s2 := fadd s1 x2 in
      forallb (fun x3 =>
        let s3 := fadd s2 x3 in
        forallb (fun x4 => overall_between lo hi (fadd s3 x4)) p4) p3) p2) p1.

(** A page with nothing an analyzer looks for: no title, description or
    heading, one image without alt, sixteen scripts from another host, no
    tag of any provider and no word of a consent banner. *)
Definition sample_worst_text : string :=
  "<html><body><img src='x.png'>"
  +:+ py_join EmptyString (repeat "<script src='http://cdn.tracker.io/t.js'></script>" 16)
  +:+ "</body></html>".

Definition sample_worst_tree : document :=
  [Tag "html" []
     [Tag "body" []
        (Tag "img" [("src", "x.png")] []
         :: repeat (Tag "script" [("src", "http://cdn.tracker.io/t.js")] []) 16)]].

(** A page with everything the analyzers look for. *)
Definition sample_best_title : string := "Pantofi sport pentru alergare - Example".

Definition sample_best_description : string :=
  "Pantofi sport pentru alergare, antrenament si timp liber, cu livrare rapida in toata "
  +:+ "tara si retur gratuit in 30 de zile pentru orice comanda.".

Definition sample_best_script : string :=
  "gtag('config', 'G-XYZ7890'); gtag('config', 'AW-12345'); "
  +:+ "dataLayer.push({container: 'GTM-ABC123'}); fbq('init', '1234567890'); "
  +:+ "fbq('track', 'ViewContent'); fbq('track', 'AddToCart'); fbq('track', 'Purchase');".

Definition sample_best_text : string :=
  "<html><head><title>" +:+ sample_best_title +:+ "</title>"
  +:+ "<meta name='description' content='" +:+ sample_best_description +:+ "'>"
  +:+ "<meta name='viewport' content='width=device-width, initial-scale=1'>"
  +:+ "<link rel='canonical' href='https://example.com/'>"
  +:+ "<meta property='og:title' content='" +:+ sample_best_title +:+ "'>"
  +:+ "<meta property='og:description' content='" +:+ sample_best_description +:+ "'>"
  +:+ "<meta property='og:image' content='https://example.com/logo.png'>"
  +:+ "<script type='application/ld+json'>{}</script>"
  +:+ "<script>" +:+ sample_best_script +:+ "</script></head>"
  +:+ "<body><h1>Pantofi sport</h1><img src='/logo.png' alt='Logo'>"
  +:+ "<p>Folosim cookie-uri.</p></body></html>".

Definition sample_best_tree : document :=
  [Tag "html" []
     [Tag "head" []
        [Tag "title" [] [Text sample_best_title];
         Tag "meta" [("name", "description"); ("content", sample_best_description)] [];
         Tag "meta" [("name", "viewport"); ("content", "width=device-width, initial-scale=1")] [];
         Tag "link" [("rel", "canonical"); ("href", "https://example.com/")] [];
         Tag "meta" [("property", "og:title"); ("content", sample_best_title)] [];
         Tag "meta" [("property", "og:description"); ("content", sample_best_description)] [];
         Tag "meta" [("property", "og:image"); ("content", "https://example.com/logo.png")] [];
         Tag "script" [("type", "application/ld+json")] [Text "{}"];
         Tag "script" [] [Text sample_best_script]];
      Tag "body" []
        [Tag "h1" [] [Text "Pantofi sport"];
         Tag "img" [("src", "/logo.png"); ("alt", "Logo")] [];
         Tag "p" [] [Text "Folosim cookie-uri."]]]].

(** The strings of a list, one after the other. *)
Fixpoint str_concat (l : list string) : string :=
  match l with
  | [] => EmptyString
  | s :: l' => s +:+ str_concat l'
  end.

(** Results with six issues, and results that agree with them on the
    domain, the platform, the four scores the report prints and the first
    five issues, and differ in all the rest. *)
Definition sample_reported : results :=
  Results "https://example.com" "example.com" (Some "Gomag") None None None None
    sample_scores
    (title_missing :: canonical_issues None ++ structured_data_issues false
     ++ [meta_ads_unknown; title_missing; meta_ads_unknown])
    [] None.

Definition sample_reported_otherwise : results :=
  Results "http://example.com" "example.com" (Some "Gomag") None None None None
    (<["meta_ads" := 40]> sample_scores)
    (title_missing :: canonical_issues None ++ structured_data_issues false
     ++ [meta_ads_unknown; title_missing; title_missing; title_missing])
    [seo_on_page] (Some "timeout").

(** An analyzer whose four category scores are all 70. *)
Definition sample_equal_scores : analyzer :=
  Analyzer "https://example.com" "example.com" None None
    (Results "https://example.com" "example.com" None None None None None
       (<["seo" := 70]> (<["tracking" := 70]> (<["technical" := 70]> (<["meta_ads" := 70]> ∅))))
       [] [] None).

(** An analyzer that has fetched the page with everything. *)
Definition sample_best : analyzer :=
  Analyzer "https://example.com" "example.com" (Some sample_best_text) (Some sample_best_tree)
    (Results "https://example.com" "example.com" None None None None None ∅ [] [] None).

(** A request body holding a URL, and a stand-in for [urlparse] that never
    raises. *)
Definition sample_request : json := JObj [("url", JStr "example.com")].

Definition sample_urlparse (u : string) : string + string := inl (sample_netloc u).

(* ===================================================================== *)
(** * Tactics                                                             *)
(* ===================================================================== *)

(** An issue of another rule: each of its possible values has another
    description. *)
Ltac other_rule :=
  repeat case_match; rewrite ?list_elem_of_singleton;
  try (let Hin := fresh in intros Hin; destruct (not_elem_of_nil _ Hin));
  intros -> ; discriminate.

(** Looking up a key in a mapping built by insertions. *)
Ltac lookup_scores :=
  repeat first [rewrite lookup_insert_eq | rewrite lookup_insert_ne by discriminate].


(* ===================================================================== *)
(** * Floats: signs and the start of a sum                                *)
(* ===================================================================== *)

(** The rounding step never changes the sign it is given. *)
Lemma binary_round_aux_sign s m e l :
  match binary_round_aux prec emax s m e l with
  | S754_zero s' | S754_infinity s' | S754_finite s' _ _ => s' = s
  | S754_nan => True
  end.
Proof.
  unfold binary_round_aux.
  destruct (shr_fexp prec emax m e l) as [mrs' e'].
  destruct (shr_fexp prec emax _ e' loc_Exact) as [mrs'' e''].
  destruct (shr_m mrs''); [reflexivity | | exact I].
  destruct (Z.leb e'' (Z.sub emax prec)); reflexivity.
Qed.

Lemma float_of_int_sign n :
  0 <= n ->
  match float_of_int n with
  | S754_zero s | S754_infinity s | S754_finite s _ _ => s = false
  | S754_nan => True
  end.
Proof.
  intros Hn. unfold float_of_int, binary_normalize.
  destruct n as [|p|p]; [reflexivity | | lia].
  unfold binary_round.
  destruct (shl_align p 0 _) as [mz ez].
  apply binary_round_aux_sign.
Qed.

Lemma fmul_weight_not_negative_zero n m e :
  0 <= n -> not_negative_zero (fmul (float_of_int n) (S754_finite false m e)).
Proof.
  intros Hn. pose proof (float_of_int_sign n Hn) as Hs.
  unfold not_negative_zero, fmul, SFmul.
  destruct (float_of_int n) as [s|s| |s m' e']; subst; try discriminate.
  pose proof (binary_round_aux_sign (xorb false false) (Zpos (Pos.mul m' m)) (Z.add e' e) loc_Exact) as H.
  intros Heq. rewrite Heq in H. discriminate.
Qed.

(** Adding to the integer 0 a float other than -0.0 gives that float. *)
Lemma fadd_zero_l x : not_negative_zero x -> fadd (float_of_int 0) x = x.
Proof.
  unfold not_negative_zero. intros Hx.
  change (float_of_int 0) with (S754_zero false).
  destruct x as [[]|s| |s m e]; try reflexivity. congruence.
Qed.

(** The weights are the binary64 numbers nearest to 30/100, 35/100, 20/100
    and 15/100, which is what the literals denote. *)
Lemma weights_are_the_literals :
  f0_30 = int_truediv 30 100 /\ f0_35 = int_truediv 35 100 /\
  f0_20 = int_truediv 20 100 /\ f0_15 = int_truediv 15 100.
Proof. repeat split; vm_compute; reflexivity. Qed.

Lemma weighted_sum_unfold scores :
  0 <= default 50 (scores !! "seo") ->
  weighted_sum scores =
    fadd (fadd (fadd (fmul (float_of_int (default 50 (scores !! "seo"))) f0_30)
                     (fmul (float_of_int (default 50 (scores !! "tracking"))) f0_35))
               (fmul (float_of_int (default 50 (scores !! "technical"))) f0_20))
         (fmul (float_of_int (default 50 (scores !! "meta_ads"))) f0_15).
Proof.
  intros Hseo. unfold weighted_sum, py_sum, weights. cbn [map fold_left fst snd].
  rewrite fadd_zero_l; [reflexivity|].
  apply fmul_weight_not_negative_zero, Hseo.
Qed.

(* ===================================================================== *)
(** * Category scores                                                     *)
(* ===================================================================== *)

Lemma category_score_fold c pe pw issues init :
  fold_left
    (fun score i =>
       if decide (i_category i = c)
       then score - (if decide (i_type i = Error) then pe else pw)
       else score)
    issues init
  = init - pe * Z.of_nat (length (errors_of c issues))
         - pw * Z.of_nat (length (warnings_of c issues)).
Proof.
  revert init. induction issues as [|i issues IH]; intros init; cbn [fold_left].
  - cbn. lia.
  - rewrite IH. unfold errors_of, warnings_of. cbn [List.filter].
    destruct (decide (i_category i = c)) as [Hc|Hc];
      [rewrite (bool_decide_eq_true_2 _ Hc) | rewrite (bool_decide_eq_false_2 _ Hc)];
      cbn [andb].
    + destruct (decide (i_type i = Error)) as [Ht|Ht];
        [rewrite (bool_decide_eq_true_2 _ Ht) | rewrite (bool_decide_eq_false_2 _ Ht)];
        cbn [negb length]; lia.
    + lia.
Qed.

Lemma category_score_counts c pe pw issues :
  category_score c pe pw issues
  = clamp (100 - pe * Z.of_nat (length (errors_of c issues))
               - pw * Z.of_nat (length (warnings_of c issues))).
Proof. unfold category_score. rewrite category_score_fold. reflexivity. Qed.

Lemma errors_warnings_length c issues :
  (length (errors_of c issues) + length (warnings_of c issues) <= length issues)%nat.
Proof.
  unfold errors_of, warnings_of.
  induction issues as [|i issues IH]; cbn [List.filter length]; [lia|].
  destruct (bool_decide (i_category i = c)), (bool_decide (i_type i = Error));
    cbn [andb negb length]; lia.
Qed.

Lemma category_score_bounds c pe pw issues :
  0 <= category_score c pe pw issues <= 100.
Proof. unfold category_score. lia. Qed.

Lemma category_score_values c pe pw issues n :
  (length issues <= n)%nat ->
  category_score c pe pw issues ∈ score_values pe pw n.
Proof.
  intros Hn. rewrite category_score_counts.
  pose proof (errors_warnings_length c issues) as Hlen.
  unfold score_values.
  apply list_elem_of_bind. exists (length (errors_of c issues)). split.
  - apply list_elem_of_bind. exists (length (warnings_of c issues)). split.
    + apply list_elem_of_singleton. reflexivity.
    + apply elem_of_seq. lia.
  - apply elem_of_seq. lia.
Qed.

(** Each analyzer appends at most one issue per rule. *)
Lemma seo_issues_length doc : (length (seo_issues doc) <= 7)%nat.
Proof.
  unfold seo_issues. rewrite !length_app.
  assert (forall t n, (length (title_issues t n) <= 1)%nat) as H1
    by (intros; unfold title_issues; repeat case_match; cbn; lia).
  assert (forall t n, (length (meta_description_issues t n) <= 1)%nat) as H2
    by (intros; unfold meta_description_issues; repeat case_match; cbn; lia).
  assert (forall n, (length (h1_issues n) <= 1)%nat) as H3
    by (intros; unfold h1_issues; repeat case_match; cbn; lia).
  assert (forall m n, (length (image_issues m n) <= 1)%nat) as H4
    by (intros; unfold image_issues; repeat case_match; cbn; lia).
  assert (forall c, (length (canonical_issues c) <= 1)%nat) as H5
    by (intros; unfold canonical_issues; repeat case_match; cbn; lia).
  assert (forall o, (length (og_issues o) <= 1)%nat) as H6
    by (intros; unfold og_issues; repeat case_match; cbn; lia).
  assert (forall b, (length (structured_data_issues b) <= 1)%nat) as H7
    by (intros; unfold structured_data_issues; repeat case_match; cbn; lia).
  set (f := seo_facts doc).
  specialize (H1 (seo_title f) (seo_title_length f)).
  specialize (H2 (seo_meta_description f) (seo_meta_description_length f)).
  specialize (H3 (seo_h1_count f)).
  specialize (H4 (seo_images_without_alt f) (seo_total_images f)).
  specialize (H5 (seo_canonical f)). specialize (H6 (seo_og_tags f)).
  specialize (H7 (seo_has_structured_data f)). lia.
Qed.

Lemma tracking_issues_length text : (length (tracking_issues text) <= 4)%nat.
Proof.
  unfold tracking_issues. rewrite !length_app.
  set (t := tracking_facts text).
  assert (length (gtm_issues t) <= 1)%nat
    by (unfold gtm_issues; case_match; cbn; lia).
  assert (length (ga4_issues t) <= 1)%nat
    by (unfold ga4_issues; case_match; cbn; lia).
  assert (length (google_ads_issues t) <= 1)%nat
    by (unfold google_ads_issues; case_match; cbn; lia).
  assert (length (facebook_issues t) <= 1)%nat
    by (unfold facebook_issues; repeat case_match; cbn; lia).
  lia.
Qed.

Lemma technical_issues_length u d text doc :
  (length (technical_issues u d text doc) <= 4)%nat.
Proof.
  unfold technical_issues. rewrite !length_app.
  set (t := technical_facts u d text doc).
  assert (length (viewport_issues t) <= 1)%nat
    by (unfold viewport_issues; case_match; cbn; lia).
  assert (length (https_issues t) <= 1)%nat
    by (unfold https_issues; case_match; cbn; lia).
  assert (length (external_scripts_issues t) <= 1)%nat
    by (unfold external_scripts_issues; case_match; cbn; lia).
  assert (length (cookie_issues t) <= 1)%nat
    by (unfold cookie_issues; case_match; cbn; lia).
  lia.
Qed.

(* ===================================================================== *)
(** * The overall score on the scores the analyzers can reach             *)
(* ===================================================================== *)

Lemma sums_ok_sound p1 p2 p3 p4 x1 x2 x3 x4 :
  sums_ok p1 p2 p3 p4 = true ->
  x1 ∈ p1 -> x2 ∈ p2 -> x3 ∈ p3 -> x4 ∈ p4 ->
  overall_ok (py_sum [x1; x2; x3; x4]) = true.
Proof.
  unfold sums_ok. intros H H1 H2 H3 H4.
  rewrite forallb_forall in H. specialize (H x1 (proj1 (list_elem_of_In _ _) H1)). cbv zeta in H.
  rewrite forallb_forall in H. specialize (H x2 (proj1 (list_elem_of_In _ _) H2)). cbv zeta in H.
  rewrite forallb_forall in H. specialize (H x3 (proj1 (list_elem_of_In _ _) H3)). cbv zeta in H.
  rewrite forallb_forall in H. specialize (H x4 (proj1 (list_elem_of_In _ _) H4)).
  exact H.
Qed.

Lemma reachable_sums_ok :
  sums_ok (products f0_30 seo_scores) (products f0_35 tracking_scores)
          (products f0_20 technical_scores) (products f0_15 meta_ads_scores) = true.
Proof. vm_cast_no_check (eq_refl true). Qed.

Lemma products_elem w v vs : v ∈ vs -> fmul (float_of_int v) w ∈ products w vs.
Proof. intros H. unfold products. apply list_elem_of_fmap. exists v. split; [reflexivity|exact H]. Qed.

(** On reachable scores the weighted sum is a finite float whose rounding
    lies in 0..100. *)
Lemma reachable_overall_ok scores seo tracking technical meta_ads :
  scores !! "seo" = Some seo -> scores !! "tracking" = Some tracking ->
  scores !! "technical" = Some technical -> scores !! "meta_ads" = Some meta_ads ->
  seo ∈ seo_scores -> tracking ∈ tracking_scores ->
  technical ∈ technical_scores -> meta_ads ∈ meta_ads_scores ->
  overall_ok (weighted_sum scores) = true.
Proof.
  intros E1 E2 E3 E4 H1 H2 H3 H4.
  unfold weighted_sum, weights. cbn [map fst snd]. rewrite E1, E2, E3, E4. cbn [default].
  apply (sums_ok_sound _ _ _ _ _ _ _ _ reachable_sums_ok); apply products_elem; assumption.
Qed.

(* ===================================================================== *)
(** * The score aggregator                                                *)
(* ===================================================================== *)

Lemma calculate_overall_score_scores a :
  res_scores (self_results (calculate_overall_score a))
  = <["overall" :=
        if decide (res_scores (self_results a) = ∅) then 0
        else py_round (weighted_sum (res_scores (self_results a)))]>
      (res_scores (self_results a)).
Proof. unfold calculate_overall_score. case_decide; reflexivity. Qed.


(** The formula is evaluated in binary64, not in exact arithmetic: for the
    scores 0, 21, 86 and 33 the exact weighted sum is 29.5, the computed one
    lies just below it, and the overall score is 29. *)
Lemma overall_formula_is_binary64 :
  30 * 0 + 35 * 21 + 20 * 86 + 15 * 33 = 2950 /\ overall_formula 0 21 86 33 = 29.
Proof. split; vm_compute; reflexivity. Qed.


(* ===================================================================== *)
(** * The pipeline on a fetched page                                      *)
(* ===================================================================== *)

(** The state after the four analyzers and the Meta Ads check. *)
Lemma analyzers_run text tree a :
  exists a1 platform,
    run_full_analysis (Fetched text tree) a
      = Some (generate_opportunities (calculate_overall_score a1)) /\
    res_platform (self_results a1) = Some platform /\
    res_scores (self_results a1)
      = <["meta_ads" := if has_fb_pixel (set_tracking (tracking_facts text) (self_results a))
                        then 70 else 40]>
          (<["technical" :=
               category_score Technical 15 8 (technical_issues (url a) (domain a) text tree)]>
             (<["tracking" := category_score Tracking 18 10 (tracking_issues text)]>
                (<["seo" := category_score Seo 15 8 (seo_issues tree)]>
                   (res_scores (self_results a))))).
Proof.
  unfold run_full_analysis, crawl, detect_platform.
  destruct (scan_platforms platforms _) as [p|];
    cbn [negb analyze_seo analyze_tracking analyze_technical soup html url domain
         with_results self_results mbind option_bind];
    unfold check_meta_ads_library; cbn [self_results with_results];
    unfold has_fb_pixel at 1; cbn [res_tracking set_technical extend_issues set_score
                                     set_tracking set_seo set_platform];
    unfold has_fb_pixel; cbn [res_tracking set_tracking];
    destruct (detected (trk_facebook_pixel (tracking_facts text)));
    eexists _, _; (split; [reflexivity|]); split; reflexivity.
Qed.

Lemma generate_opportunities_scores a :
  res_scores (self_results (generate_opportunities a)) = res_scores (self_results a).
Proof. reflexivity. Qed.

(** C2. For every fetched document the analysis completes, and the four
    category scores and the overall score it stores lie in 0..100; the
    overall score is the rounding of a finite weighted sum. *)
Theorem scores_lie_in_0_100 (text : string) (tree : document) (a : analyzer) :
  exists a' seo tracking technical meta_ads overall,
    run_full_analysis (Fetched text tree) a = Some a' /\
    res_scores (self_results a') !! "seo" = Some seo /\ 0 <= seo <= 100 /\
    res_scores (self_results a') !! "tracking" = Some tracking /\ 0 <= tracking <= 100 /\
    res_scores (self_results a') !! "technical" = Some technical /\ 0 <= technical <= 100 /\
    res_scores (self_results a') !! "meta_ads" = Some meta_ads /\ 0 <= meta_ads <= 100 /\
    res_scores (self_results a') !! "overall" = Some overall /\ 0 <= overall <= 100 /\
    overall = overall_formula seo tracking technical meta_ads /\
    is_finite (weighted_sum (res_scores (self_results a'))) = true.
Proof.
  destruct (analyzers_run text tree a) as (a1 & platform & Hrun & _ & Hscores).
  set (seo := category_score Seo 15 8 (seo_issues tree)) in *.
  set (tracking := category_score Tracking 18 10 (tracking_issues text)) in *.
  set (technical :=
         category_score Technical 15 8 (technical_issues (url a) (domain a) text tree)) in *.
  set (meta_ads := if has_fb_pixel _ then 70 else 40) in *.
  assert (res_scores (self_results a1) !! "seo" = Some seo) as E1
    by (rewrite Hscores; rewrite !lookup_insert_ne by discriminate; apply lookup_insert_eq).
  assert (res_scores (self_results a1) !! "tracking" = Some tracking) as E2
    by (rewrite Hscores; rewrite !lookup_insert_ne by discriminate; apply lookup_insert_eq).
  assert (res_scores (self_results a1) !! "technical" = Some technical) as E3
    by (rewrite Hscores; rewrite !lookup_insert_ne by discriminate; apply lookup_insert_eq).
  assert (res_scores (self_results a1) !! "meta_ads" = Some meta_ads) as E4
    by (rewrite Hscores; apply lookup_insert_eq).
  assert (res_scores (self_results a1) <> ∅) as Hne
    by (rewrite Hscores; apply insert_non_empty).
  assert (seo ∈ seo_scores) as V1
    by (apply category_score_values, seo_issues_length).
  assert (tracking ∈ tracking_scores) as V2
    by (apply category_score_values, tracking_issues_length).
  assert (technical ∈ technical_scores) as V3
    by (apply category_score_values, technical_issues_length).
  assert (meta_ads ∈ meta_ads_scores) as V4
    by (unfold meta_ads, meta_ads_scores; case_match;
        [apply elem_of_cons; left | apply elem_of_cons; right; apply elem_of_cons; left];
        reflexivity).
  pose proof (reachable_overall_ok _ _ _ _ _ E1 E2 E3 E4 V1 V2 V3 V4) as Hok.
  unfold overall_ok in Hok. apply andb_prop in Hok as [Hok Hhi].
  apply andb_prop in Hok as [Hfin Hlo].
  apply Z.leb_le in Hlo, Hhi.
  assert (0 <= seo <= 100) as B1 by apply category_score_bounds.
  assert (0 <= tracking <= 100) as B2 by apply category_score_bounds.
  assert (0 <= technical <= 100) as B3 by apply category_score_bounds.
  assert (0 <= meta_ads <= 100) as B4 by (unfold meta_ads; case_match; lia).
  exists (generate_opportunities (calculate_overall_score a1)),
    seo, tracking, technical, meta_ads,
    (py_round (weighted_sum (res_scores (self_results a1)))).
  rewrite generate_opportunities_scores, calculate_overall_score_scores.
  rewrite decide_False by exact Hne.
  assert (weighted_sum
            (<["overall" := py_round (weighted_sum (res_scores (self_results a1)))]>
               (res_scores (self_results a1)))
          = weighted_sum (res_scores (self_results a1))) as Hsame.
  { unfold weighted_sum, weights. cbn [map fst snd].
    rewrite !lookup_insert_ne by discriminate. reflexivity. }
  rewrite Hsame.
  repeat split; try assumption; try lia;
    try (rewrite lookup_insert_ne by discriminate; assumption).
  - apply lookup_insert_eq.
  - unfold overall_formula. rewrite weighted_sum_unfold by (rewrite E1; cbn; lia).
    rewrite E1, E2, E3, E4. reflexivity.
Qed.

(* ===================================================================== *)
(** * Substrings and pattern matches                                      *)
(* ===================================================================== *)

Lemma prefix_append p s :
  String.prefix p s = true -> exists rest, s = p +:+ rest.
Proof.
  revert s. induction p as [|c p IH]; intros s H.
  - exists s. reflexivity.
  - destruct s as [|c' s]; [discriminate|]. cbn in H.
    destruct (ascii_dec c c') as [<-|]; [|discriminate].
    destruct (IH s H) as [rest ->]. exists rest. reflexivity.
Qed.

Lemma match_here_lit p re rest n cap :
  match_here (lit p ++ re) (p +:+ rest) n cap
  = match_here re rest (n + String.length p) cap.
Proof.
  revert n. induction p as [|c p IH]; intros n; cbn [lit app String.append String.length].
  - f_equal. lia.
  - change (String c p +:+ rest) with (String c (p +:+ rest)).
    cbn [match_here]. rewrite Ascii.eqb_refl, IH. f_equal. lia.
Qed.

(** A greedy repetition whose continuation always succeeds succeeds. *)
Lemma greedy_is_Some {R} cls (k : string -> string -> option R) taken s :
  (forall t r, is_Some (k t r)) -> is_Some (greedy cls k taken s).
Proof.
  intros Hk. revert taken. induction s as [|c s IH]; intros taken; cbn [greedy].
  - apply Hk.
  - destruct (cls c); [|apply Hk].
    destruct (IH (taken +:+ String c EmptyString)) as [r ->]. eexists; reflexivity.
Qed.

(** A pattern that matches at every occurrence of a string is found in
    every text containing the string. *)
Lemma re_search_of_py_in re needle text :
  (forall rest, is_Some (match_here re (needle +:+ rest) 0 None)) ->
  py_in needle text = true -> re_search re text = true.
Proof.
  intros Hm. induction text as [|c text IH]; intros Hin.
  - cbn [py_in] in Hin. rewrite orb_false_r in Hin.
    destruct (prefix_append _ _ Hin) as [rest Hrest].
    cbn [re_search]. destruct (Hm rest) as [m Hm']. rewrite <- Hrest in Hm'.
    rewrite Hm'. reflexivity.
  - cbn [py_in] in Hin. cbn [re_search].
    destruct (match_here re (String c text) 0 None) eqn:E; [reflexivity|].
    apply orb_prop in Hin as [Hin|Hin]; [|exact (IH Hin)].
    destruct (prefix_append _ _ Hin) as [rest Hrest].
    rewrite Hrest in E. destruct (Hm rest) as [m Hm']. congruence.
Qed.

(** [findall] finds something exactly when the pattern matches somewhere. *)
Lemma re_findall_nonempty re text :
  re_search re text = true <-> re_findall re text <> [].
Proof.
  unfold re_findall. induction text as [|c text IH]; cbn [re_search findall_from].
  - destruct (match_here re EmptyString 0 None); split; congruence.
  - destruct (match_here re (String c text) 0 None); [split; congruence|exact IH].
Qed.

Lemma detect_detected re text :
  detected (detect re text) = re_search re text.
Proof.
  unfold detect. cbn [detected].
  pose proof (re_findall_nonempty re text) as H.
  destruct (re_findall re text) as [|m ms]; cbn [length].
  - destruct (re_search re text); [|reflexivity]. exfalso. apply (proj1 H); reflexivity.
  - symmetry. apply H. discriminate.
Qed.

Lemma gtm_matches_literal rest :
  is_Some (match_here gtm_pattern ("GTM-ABC123" +:+ rest) 0 None).
Proof.
  change ("GTM-ABC123" +:+ rest) with ("GTM-" +:+ String "A" ("BC123" +:+ rest)).
  unfold gtm_pattern. rewrite match_here_lit. cbn [match_here].
  change (cls_upper_digit "A") with true. cbv iota.
  apply greedy_is_Some. intros; eexists; reflexivity.
Qed.

Lemma ga4_matches_literal rest :
  is_Some (match_here ga4_pattern ("G-XYZ7890" +:+ rest) 0 None).
Proof.
  change ("G-XYZ7890" +:+ rest) with ("G-" +:+ String "X" ("YZ7890" +:+ rest)).
  unfold ga4_pattern. rewrite match_here_lit. cbn [match_here].
  change (cls_upper_digit "X") with true. cbv iota.
  apply greedy_is_Some. intros; eexists; reflexivity.
Qed.

Lemma gads_matches_literal rest :
  is_Some (match_here gads_pattern ("AW-12345" +:+ rest) 0 None).
Proof.
  change ("AW-12345" +:+ rest) with ("AW-" +:+ String "1" ("2345" +:+ rest)).
  unfold gads_pattern. rewrite match_here_lit. cbn [match_here].
  change (py_isdigit "1") with true. cbv iota.
  apply greedy_is_Some. intros; eexists; reflexivity.
Qed.

(* ===================================================================== *)
(** * The tracking analyzer                                               *)
(* ===================================================================== *)

Lemma analyze_tracking_fetched a text :
  html a = Some text ->
  analyze_tracking a
  = Some (with_results a
            (set_score "tracking" (category_score Tracking 18 10 (tracking_issues text))
               (extend_issues (tracking_issues text)
                  (set_tracking (tracking_facts text) (self_results a))))).
Proof. intros H. unfold analyze_tracking. rewrite H. reflexivity. Qed.

(** With the four providers detected and at least three events found, no
    rule of the tracking analyzer fires. *)
Lemma tracking_issues_none text :
  re_search gtm_pattern text = true -> re_search ga4_pattern text = true ->
  re_search gads_pattern text = true -> re_search fb_pixel_pattern text = true ->
  (3 <= length (find_fb_events text))%nat ->
  tracking_issues text = [].
Proof.
  intros H1 H2 H3 H4 H5.
  unfold tracking_issues, gtm_issues, ga4_issues, google_ads_issues, facebook_issues,
    tracking_facts.
  cbn [trk_gtm trk_ga4 trk_google_ads trk_facebook_pixel trk_facebook_events].
  rewrite !detect_detected, H1, H2, H3, H4. cbn [negb app].
  destruct (Nat.ltb_spec (length (find_fb_events text)) 3); [lia|reflexivity].
Qed.

(** With the four providers detected and fewer than three events found,
    the only issue is the incomplete-events warning, and the score is 90. *)
Lemma tracking_fewer_events_score_90 text :
  re_search gtm_pattern text = true -> re_search ga4_pattern text = true ->
  re_search gads_pattern text = true -> re_search fb_pixel_pattern text = true ->
  (length (find_fb_events text) < 3)%nat ->
  errors_of Tracking (tracking_issues text) = [] /\
  length (warnings_of Tracking (tracking_issues text)) = 1%nat /\
  category_score Tracking 18 10 (tracking_issues text) = 90.
Proof.
  intros H1 H2 H3 H4 H5.
  unfold tracking_issues, gtm_issues, ga4_issues, google_ads_issues, facebook_issues,
    tracking_facts.
  cbn [trk_gtm trk_ga4 trk_google_ads trk_facebook_pixel trk_facebook_events].
  rewrite !detect_detected, H1, H2, H3, H4. cbn [negb app].
  destruct (Nat.ltb_spec (length (find_fb_events text)) 3); [|lia].
  repeat split.
Qed.

(** C3, as the code has it.  For a document whose text contains GTM-ABC123,
    G-XYZ7890 and AW-12345 and a Facebook Pixel init call, and in which
    exactly 3 of the 5 named events occur, the tracking analyzer emits no
    issue at all (neither an error nor the incomplete-events warning, which
    is for fewer than 3 events) and sets the tracking score to 100. *)
Theorem tracking_three_events_score_100 (a : analyzer) (text : string) :
  html a = Some text ->
  py_in "GTM-ABC123" text = true ->
  py_in "G-XYZ7890" text = true ->
  py_in "AW-12345" text = true ->
  re_search fb_pixel_pattern text = true ->
  length (find_fb_events text) = 3%nat ->
  exists a',
    analyze_tracking a = Some a' /\
    tracking_issues text = [] /\
    res_issues (self_results a') = res_issues (self_results a) /\
    res_scores (self_results a') !! "tracking" = Some 100.
Proof.
  intros Hhtml Hgtm Hga4 Hgads Hfb Hev.
  assert (tracking_issues text = []) as Hnone.
  { apply tracking_issues_none; try assumption.
    - exact (re_search_of_py_in _ _ _ gtm_matches_literal Hgtm).
    - exact (re_search_of_py_in _ _ _ ga4_matches_literal Hga4).
    - exact (re_search_of_py_in _ _ _ gads_matches_literal Hgads).
    - lia. }
  eexists. split; [apply analyze_tracking_fetched, Hhtml|].
  split; [exact Hnone|]. rewrite Hnone.
  cbn [self_results with_results res_issues res_scores set_score extend_issues].
  split; [apply app_nil_r|apply lookup_insert_eq].
Qed.

Lemma tracking_three_events_score_100_witness :
  exists a',
    analyze_tracking sample_tracked = Some a' /\
    tracking_issues sample_tracked_text = [] /\
    res_issues (self_results a') = res_issues (self_results sample_tracked) /\
    res_scores (self_results a') !! "tracking" = Some 100.
Proof.
  apply (tracking_three_events_score_100 sample_tracked sample_tracked_text);
    vm_compute; reflexivity.
Defined.

(** C3 as stated fails: on the sample page, which has the three tags, the
    pixel and exactly three events, the analyzer emits no warning and the
    score is 100, not 90. *)
Lemma tracking_three_events_counterexample :
  py_in "GTM-ABC123" sample_tracked_text = true /\
  py_in "G-XYZ7890" sample_tracked_text = true /\
  py_in "AW-12345" sample_tracked_text = true /\
  re_search fb_pixel_pattern sample_tracked_text = true /\
  length (find_fb_events sample_tracked_text) = 3%nat /\
  errors_of Tracking (tracking_issues sample_tracked_text) = [] /\
  length (warnings_of Tracking (tracking_issues sample_tracked_text)) <> 1%nat /\
  category_score Tracking 18 10 (tracking_issues sample_tracked_text) <> 90.
Proof. vm_compute. repeat split; discriminate. Qed.

(* ===================================================================== *)
(** * Platform detection                                                  *)
(* ===================================================================== *)

Lemma html_lower_fetched a text : html a = Some text -> html_lower a = py_lower text.
Proof. intros H. unfold html_lower. rewrite H. destruct text; reflexivity. Qed.

Lemma has_signature_true h name sigs :
  has_signature h (name, sigs) = true <-> exists sig, sig ∈ sigs /\ py_in sig h = true.
Proof.
  unfold has_signature. cbn [snd]. rewrite existsb_exists.
  split; intros (sig & H1 & H2); exists sig.
  - split; [apply list_elem_of_In, H1|exact H2].
  - split; [apply list_elem_of_In, H1|exact H2].
Qed.

Lemma has_signature_false h name sigs :
  has_signature h (name, sigs) = false <-> forall sig, sig ∈ sigs -> py_in sig h = false.
Proof.
  split.
  - intros H sig Hsig. destruct (py_in sig h) eqn:E; [|reflexivity].
    rewrite <- H. symmetry. apply has_signature_true. eauto.
  - intros H. destruct (has_signature h (name, sigs)) eqn:E; [|reflexivity].
    apply has_signature_true in E as (sig & Hsig & Hin). rewrite (H sig Hsig) in Hin.
    discriminate.
Qed.

(** The scan returns the entry of least index that has a signature. *)
Lemma scan_platforms_first table h i name sigs :
  table !! i = Some (name, sigs) ->
  has_signature h (name, sigs) = true ->
  (forall j e, (j < i)%nat -> table !! j = Some e -> has_signature h e = false) ->
  scan_platforms table h = Some name.
Proof.
  revert i. induction table as [|e table IH]; intros i Hi Hsig Hbefore; [discriminate|].
  cbn [scan_platforms]. destruct i as [|i].
  - cbn in Hi. injection Hi as ->. rewrite Hsig. reflexivity.
  - rewrite (Hbefore 0%nat e) by (reflexivity || lia).
    apply (IH i Hi Hsig). intros j e' Hj He'. apply (Hbefore (S j) e'); [lia|exact He'].
Qed.



Lemma scan_platforms_found table h name :
  scan_platforms table h = Some name ->
  exists i sigs, table !! i = Some (name, sigs) /\ has_signature h (name, sigs) = true /\
    forall j e, (j < i)%nat -> table !! j = Some e -> has_signature h e = false.
Proof.
  induction table as [|e table IH]; [discriminate|].
  cbn [scan_platforms]. destruct (has_signature h e) eqn:E.
  - intros [= <-]. exists 0%nat, (snd e). destruct e as [n s]. cbn [fst snd].
    split; [reflexivity|]. split; [exact E|]. intros j e' Hj. lia.
  - intros H. destruct (IH H) as (i & sigs & Hi & Hsig & Hbefore).
    exists (S i), sigs. split; [exact Hi|]. split; [exact Hsig|].
    intros [|j] e' Hj He'.
    + cbn in He'. injection He' as <-. exact E.
    + apply (Hbefore j e'); [lia|exact He'].
Qed.





(* ===================================================================== *)
(** * Fetch failure                                                       *)
(* ===================================================================== *)

(** C5. When the fetch fails, the full analysis returns normally; the
    result carries the failure description in its error field, and no
    analyzer has run: no platform, no findings, no scores, no issues and no
    opportunities.  The same holds when the parser is what fails. *)
Theorem fetch_failure_gives_error_only (netloc : string -> string) (u e text : string) :
  let expected :=
    Results (url (WebsiteAnalyzer netloc u)) (domain (WebsiteAnalyzer netloc u))
      None None None None None ∅ [] [] (Some e) in
  (exists a', run_full_analysis (FetchRaised e) (WebsiteAnalyzer netloc u) = Some a' /\
              self_results a' = expected) /\
  (exists a', run_full_analysis (ParseRaised text e) (WebsiteAnalyzer netloc u) = Some a' /\
              self_results a' = expected).
Proof. split; eexists; split; reflexivity. Qed.

(* ===================================================================== *)
(** * Opportunities                                                       *)
(* ===================================================================== *)



(* ===================================================================== *)
(** * The image rule of the SEO analyzer                                  *)
(* ===================================================================== *)

Lemma py_isdigit_pretty_N_char k : py_isdigit (pretty_N_char k) = true.
Proof. unfold pretty_N_char. repeat case_match; reflexivity. Qed.

Lemma pretty_N_go_digit_headed x s : digit_headed s -> digit_headed (pretty_N_go x s).
Proof.
  revert s. induction (N.lt_wf_0 x) as [x _ IH]; intros s Hs.
  assert (x = 0 \/ 0 < x)%N as [->|Hpos] by lia.
  - rewrite pretty_N_go_0. exact Hs.
  - rewrite pretty_N_go_step by exact Hpos. apply IH.
    + apply N.div_lt; [exact Hpos|reflexivity].
    + eexists _, _. split; [reflexivity|apply py_isdigit_pretty_N_char].
Qed.

(** A printed natural number starts with a digit. *)
Lemma pretty_nat_digit_headed (n : nat) : digit_headed (pretty n).
Proof.
  unfold pretty, pretty_nat, pretty, pretty_N. case_decide.
  - exists "0"%char, EmptyString. split; reflexivity.
  - rewrite pretty_N_go_step by lia. apply pretty_N_go_digit_headed.
    eexists _, _. split; [reflexivity|apply py_isdigit_pretty_N_char].
Qed.

Lemma without_alt_iff img :
  without_alt img = true <->
  tag_get img "alt" = None \/ exists alt, tag_get img "alt" = Some alt /\ py_strip alt = EmptyString.
Proof.
  unfold without_alt. destruct (tag_get img "alt") as [alt|]; cbn [truthy negb orb].
  - destruct alt as [|c alt]; cbn [negb orb].
    + split; [intros _; right; exists EmptyString; split; reflexivity|reflexivity].
    + rewrite String.eqb_eq. split.
      * intros H. right. eexists. split; [reflexivity|exact H].
      * intros [H|(alt' & [= <-] & H)]; [discriminate|exact H].
  - split; [intros _; left; reflexivity|reflexivity].
Qed.

Lemma images_without_alt_nonempty doc :
  (0 < length (images_without_alt doc))%nat <->
  exists img, img ∈ find_all doc "img" [] /\ without_alt img = true.
Proof.
  unfold images_without_alt. split.
  - destruct (List.filter without_alt (find_all doc "img" [])) as [|img l] eqn:E;
      cbn [length]; [lia|]. intros _. exists img.
    assert (In img (List.filter without_alt (find_all doc "img" []))) as Hin
      by (rewrite E; left; reflexivity).
    apply filter_In in Hin as [Hin Hw]. split; [apply list_elem_of_In, Hin|exact Hw].
  - intros (img & Hin & Hw).
    assert (In img (List.filter without_alt (find_all doc "img" []))) as Hf
      by (apply filter_In; split; [apply list_elem_of_In, Hin|exact Hw]).
    destruct (List.filter without_alt (find_all doc "img" [])); [destruct Hf|cbn; lia].
Qed.

(** Only the image rule produces an issue with the image description. *)
Lemma image_issue_in_seo_issues doc i :
  i ∈ seo_issues doc /\ i_description i = image_alt_description <->
  i ∈ image_issues (length (images_without_alt doc)) (length (find_all doc "img" [])).
Proof.
  unfold seo_issues. cbn [seo_facts seo_title seo_title_length seo_meta_description
    seo_meta_description_length seo_h1_count seo_images_without_alt seo_total_images
    seo_canonical seo_og_tags seo_has_structured_data].
  rewrite !elem_of_app. split.
  - intros [[H|[H|[H|[H|[H|[H|H]]]]]] Hd]; [| | |exact H| | |]; exfalso; revert H Hd.
    + unfold title_issues. other_rule.
    + unfold meta_description_issues. other_rule.
    + unfold h1_issues. other_rule.
    + unfold canonical_issues. other_rule.
    + unfold og_issues. other_rule.
    + unfold structured_data_issues. other_rule.
  - intros H. split; [tauto|]. revert H. unfold image_issues.
    case_match; [|intros Hin; destruct (not_elem_of_nil _ Hin)].
    rewrite list_elem_of_singleton. intros ->. reflexivity.
Qed.

Lemma analyze_seo_fetched a doc :
  soup a = Some doc ->
  analyze_seo a
  = Some (with_results a
            (set_score "seo" (category_score Seo 15 8 (seo_issues doc))
               (extend_issues (seo_issues doc) (set_seo (seo_facts doc) (self_results a))))).
Proof. intros H. unfold analyze_seo. rewrite H. reflexivity. Qed.

(** C7, as the code has it.  For every document, the SEO analyzer emits
    the image-alt issue if and only if at least one image has no alt
    attribute or one that is empty once surrounding whitespace is stripped;
    the issue is an error when round(missing/max(total,1)*100) is at least
    50 and a warning when it is below 50. *)
Theorem image_alt_issue_rule (doc : document) :
  let images := find_all doc "img" [] in
  let pct := missing_alt_pct (length (images_without_alt doc)) (length images) in
  ((exists i, i ∈ seo_issues doc /\ i_description i = image_alt_description) <->
   (exists img, img ∈ images /\
      (tag_get img "alt" = None \/
       exists alt, tag_get img "alt" = Some alt /\ py_strip alt = EmptyString))) /\
  (forall i, i ∈ seo_issues doc -> i_description i = image_alt_description ->
      (50 <= pct -> i_type i = Error) /\ (pct < 50 -> i_type i = Warning)).
Proof.
  intros images pct. split.
  - transitivity (0 < length (images_without_alt doc))%nat.
    + split.
      * intros (i & Hi & Hd).
        pose proof (proj1 (image_issue_in_seo_issues doc i) (conj Hi Hd)) as Hin.
        unfold image_issues in Hin.
        destruct (Nat.ltb_spec 0 (length (images_without_alt doc))); [assumption|].
        destruct (not_elem_of_nil _ Hin).
      * intros Hpos.
        assert (exists i, i ∈ image_issues (length (images_without_alt doc)) (length images))
          as [i Hin].
        { unfold image_issues.
          destruct (Nat.ltb_spec 0 (length (images_without_alt doc))); [|lia].
          eexists. apply list_elem_of_singleton. reflexivity. }
        exists i. apply image_issue_in_seo_issues, Hin.
    + rewrite images_without_alt_nonempty. split.
      * intros (img & Hin & Hw). exists img. split; [exact Hin|apply without_alt_iff, Hw].
      * intros (img & Hin & Hw). exists img. split; [exact Hin|apply without_alt_iff, Hw].
  - intros i Hi Hd.
    pose proof (proj1 (image_issue_in_seo_issues doc i) (conj Hi Hd)) as Hin.
    unfold image_issues in Hin. fold images in Hin. cbv zeta in Hin. fold pct in Hin.
    destruct (0 <? length (images_without_alt doc))%nat;
      [|destruct (not_elem_of_nil _ Hin)].
    apply list_elem_of_singleton in Hin as ->. cbn [i_type].
    destruct (Z.ltb_spec pct 50); split; intros; (reflexivity || lia).
Qed.

Lemma image_alt_issue_rule_witness :
  exists i, i ∈ seo_issues sample_half_alt /\ i_description i = image_alt_description /\
            i_type i = Error.
Proof.
  destruct (image_alt_issue_rule sample_half_alt) as [Hiff Hseverity].
  destruct (proj2 Hiff) as (i & Hi & Hd).
  { exists (Tag "img" [("src", "b.png")] []). split; [|left; reflexivity].
    apply list_elem_of_In. vm_compute. right. left. reflexivity. }
  exists i. split; [exact Hi|]. split; [exact Hd|].
  apply (Hseverity i Hi Hd). vm_compute. discriminate.
Defined.

(** C7 as stated fails: the only image of the sample page has a non-empty
    alt attribute (one space), and the analyzer emits the image-alt issue
    all the same. *)
Lemma image_alt_issue_counterexample :
  (exists i, i ∈ seo_issues sample_blank_alt /\ i_description i = image_alt_description) /\
  ~ (exists img, img ∈ find_all sample_blank_alt "img" [] /\ lacks_nonempty_alt img = true).
Proof.
  split.
  - exists (Issue Error Seo "1 imagini fără ALT (100%)" image_alt_description
              "Pierzi trafic organic din Google Images").
    split; [|reflexivity]. apply list_elem_of_In. vm_compute. tauto.
  - intros (img & Hin & Hlacks). apply list_elem_of_In in Hin. vm_compute in Hin.
    destruct Hin as [<-|[]]. vm_compute in Hlacks. discriminate.
Qed.

(* ===================================================================== *)
(** * The external-scripts rule of the technical analyzer                 *)
(* ===================================================================== *)

Lemma external_issue_in_technical_issues u d text doc i :
  i ∈ technical_issues u d text doc /\ i_description i = external_scripts_description <->
  i ∈ external_scripts_issues (technical_facts u d text doc).
Proof.
  unfold technical_issues. cbv zeta. rewrite !elem_of_app. split.
  - intros [[H|[H|[H|H]]] Hd]; [| |exact H|]; exfalso; revert H Hd.
    + unfold viewport_issues. other_rule.
    + unfold https_issues. other_rule.
    + unfold cookie_issues. other_rule.
  - intros H. split; [tauto|]. revert H. unfold external_scripts_issues.
    case_match; [|intros Hin; destruct (not_elem_of_nil _ Hin)].
    rewrite list_elem_of_singleton. intros ->. reflexivity.
Qed.

(** C8, as the code has it.  For every document, the technical analyzer
    counts the script tags whose src attribute starts with "http" and does
    not contain the target domain as a substring, and emits a warning
    naming that count if and only if the count exceeds 15. *)
Theorem external_scripts_rule (self_url self_domain text : string) (doc : document) :
  let count :=
    length (List.filter
              (fun s => py_startswith "http" (src_of s)
                        && negb (py_in self_domain (src_of s)))
              (find_all doc "script" [("src", Present)])) in
  let issues := technical_issues self_url self_domain text doc in
  tech_external_scripts (technical_facts self_url self_domain text doc) = count /\
  ((exists i, i ∈ issues /\ i_description i = external_scripts_description)
   <-> (15 < count)%nat) /\
  (forall i, i ∈ issues -> i_description i = external_scripts_description ->
     i_type i = Warning /\
     i_title i = "Multe scripturi externe (" +:+ pretty count +:+ ")").
Proof.
  intros count issues. split; [reflexivity|]. split.
  - split.
    + intros (i & Hi & Hd).
      pose proof (proj1 (external_issue_in_technical_issues _ _ _ _ i) (conj Hi Hd)) as Hin.
      unfold external_scripts_issues in Hin.
      change (tech_external_scripts (technical_facts self_url self_domain text doc))
        with count in Hin.
      destruct (Nat.ltb_spec 15 count); [assumption|destruct (not_elem_of_nil _ Hin)].
    + intros Hmany.
      assert (exists i,
                 i ∈ external_scripts_issues (technical_facts self_url self_domain text doc))
        as [i Hin].
      { unfold external_scripts_issues.
        change (tech_external_scripts (technical_facts self_url self_domain text doc))
          with count.
        destruct (Nat.ltb_spec 15 count); [|lia].
        eexists. apply list_elem_of_singleton. reflexivity. }
      exists i. apply external_issue_in_technical_issues, Hin.
  - intros i Hi Hd.
    pose proof (proj1 (external_issue_in_technical_issues _ _ _ _ i) (conj Hi Hd)) as Hin.
    unfold external_scripts_issues in Hin.
    change (tech_external_scripts (technical_facts self_url self_domain text doc))
      with count in Hin.
    destruct (15 <? count)%nat; [|destruct (not_elem_of_nil _ Hin)].
    apply list_elem_of_singleton in Hin as ->. split; reflexivity.
Qed.

Lemma external_scripts_rule_witness :
  exists i,
    i ∈ technical_issues "https://example.com" "example.com" EmptyString sample_external_scripts /\
    i_type i = Warning /\ i_title i = "Multe scripturi externe (16)".
Proof.
  destruct (external_scripts_rule "https://example.com" "example.com" EmptyString
              sample_external_scripts) as (_ & Hiff & Hwarning).
  destruct (proj2 Hiff) as (i & Hi & Hd); [vm_compute; lia|].
  exists i. split; [exact Hi|]. exact (Hwarning i Hi Hd).
Defined.

(** C8 as stated fails: the sixteen scripts of the sample page are absolute
    URLs on a host other than the target domain, yet the analyzer counts
    none of them, because their address contains the domain, and emits no
    warning. *)
Lemma external_scripts_counterexample :
  let scripts := find_all sample_scripts_naming_domain "script" [("src", Present)] in
  length (List.filter (on_other_host "example.com") scripts) = 16%nat /\
  tech_external_scripts
    (technical_facts "https://example.com" "example.com" EmptyString sample_scripts_naming_domain)
  = 0%nat /\
  ~ (exists i,
        i ∈ technical_issues "https://example.com" "example.com" EmptyString
              sample_scripts_naming_domain /\
        i_description i = external_scripts_description).
Proof.
  split; [vm_compute; reflexivity|]. split; [vm_compute; reflexivity|].
  intros (i & Hi & Hd).
  pose proof (proj1 (external_issue_in_technical_issues _ _ _ _ i) (conj Hi Hd)) as Hin.
  vm_compute in Hin. destruct (not_elem_of_nil _ Hin).
Qed.

(* ===================================================================== *)
(** * The target URL                                                      *)
(* ===================================================================== *)

(** What the constructor does with the input: it tests the first four
    characters. *)
Lemma target_url_startswith_http (netloc : string -> string) (u : string) :
  url (WebsiteAnalyzer netloc u) = if py_startswith "http" u then u else "https://" +:+ u.
Proof. reflexivity. Qed.

(** C9, as the code has it.  For every input URL string, the analyzer's
    target URL is the input unchanged when the input starts with "http://"
    or "https://", and "https://" prepended to the input when the input
    does not start with "http". *)
Theorem target_url_rule (netloc : string -> string) (u : string) :
  (String.prefix "http://" u = true \/ String.prefix "https://" u = true ->
   url (WebsiteAnalyzer netloc u) = u) /\
  (py_startswith "http" u = false -> url (WebsiteAnalyzer netloc u) = "https://" +:+ u) /\
  res_url (self_results (WebsiteAnalyzer netloc u)) = url (WebsiteAnalyzer netloc u).
Proof.
  rewrite target_url_startswith_http. split; [|split; [intros ->; reflexivity|reflexivity]].
  intros [H|H]; destruct (prefix_append _ _ H) as [rest ->]; reflexivity.
Qed.

Lemma target_url_rule_witness :
  url (WebsiteAnalyzer sample_netloc "http://example.com") = "http://example.com" /\
  url (WebsiteAnalyzer sample_netloc "example.com") = "https://example.com".
Proof.
  split.
  - apply (proj1 (target_url_rule sample_netloc "http://example.com")). left. reflexivity.
  - apply (proj1 (proj2 (target_url_rule sample_netloc "example.com"))). reflexivity.
Defined.

(** C9 as stated fails: "httpbin.org" carries no scheme and gets no
    "https://", and "ftp://files.example.com" carries a scheme and is
    changed. *)
Lemma target_url_counterexample :
  carries_scheme "httpbin.org" = false /\
  url (WebsiteAnalyzer sample_netloc "httpbin.org") <> "https://httpbin.org" /\
  carries_scheme "ftp://files.example.com" = true /\
  url (WebsiteAnalyzer sample_netloc "ftp://files.example.com") <> "ftp://files.example.com".
Proof. vm_compute. repeat split; discriminate. Qed.

(* ===================================================================== *)
(** * The title rule of the SEO analyzer                                  *)
(* ===================================================================== *)

Lemma image_issue_title_digit_headed m t i :
  i ∈ image_issues m t -> digit_headed (i_title i).
Proof.
  unfold image_issues. case_match; [|intros Hin; destruct (not_elem_of_nil _ Hin)].
  rewrite list_elem_of_singleton. intros ->. cbn [i_title].
  destruct (pretty_nat_digit_headed m) as (c & rest & -> & Hc).
  eexists c, _. split; [reflexivity|exact Hc].
Qed.

(** C10, as the code has it.  For every document whose first title element
    has a text that is empty once stripped of whitespace, the SEO analyzer
    records the empty string as the title (not None) with title length 0,
    and emits the missing-title error, not the too-short warning. *)
Theorem blank_title_is_missing (doc : document) (title_tag : node) :
  find doc "title" [] = Some title_tag ->
  py_strip (get_text title_tag) = EmptyString ->
  seo_title (seo_facts doc) = Some EmptyString /\
  seo_title_length (seo_facts doc) = 0%nat /\
  (exists rest, seo_issues doc = title_missing :: rest) /\
  (forall i, i ∈ seo_issues doc -> i_title i <> "Title tag prea scurt").
Proof.
  intros Hfind Hblank.
  assert (find_title doc = Some EmptyString) as Htitle
    by (unfold find_title; rewrite Hfind, Hblank; reflexivity).
  split; [exact Htitle|]. split; [cbn [seo_facts seo_title_length]; rewrite Htitle; reflexivity|].
  unfold seo_issues. cbn [seo_facts seo_title seo_title_length seo_meta_description
    seo_meta_description_length seo_h1_count seo_images_without_alt seo_total_images
    seo_canonical seo_og_tags seo_has_structured_data].
  rewrite Htitle. change (title_issues (Some EmptyString) (len_if (Some EmptyString)))
    with [title_missing].
  split; [eexists; reflexivity|].
  intros i. rewrite !elem_of_app.
  intros [H|[H|[H|[H|[H|[H|H]]]]]]; revert H.
  - rewrite list_elem_of_singleton. intros ->. discriminate.
  - unfold meta_description_issues. other_rule.
  - unfold h1_issues. other_rule.
  - intros H Heq. destruct (image_issue_title_digit_headed _ _ _ H) as (c & rest & Hc & Hd).
    rewrite Heq in Hc. injection Hc as <- _. discriminate.
  - unfold canonical_issues. other_rule.
  - unfold og_issues. other_rule.
  - unfold structured_data_issues. other_rule.
Qed.

Lemma blank_title_is_missing_witness :
  seo_title (seo_facts sample_blank_title) = Some EmptyString /\
  seo_title_length (seo_facts sample_blank_title) = 0%nat /\
  (exists rest, seo_issues sample_blank_title = title_missing :: rest) /\
  (forall i, i ∈ seo_issues sample_blank_title -> i_title i <> "Title tag prea scurt").
Proof.
  apply (blank_title_is_missing sample_blank_title (Tag "title" [] [Text "   "]));
    vm_compute; reflexivity.
Defined.

(** C10 as stated fails: the sample page has a title element whose text is
    blank, and the title field is the empty string, not None. *)
Lemma blank_title_counterexample :
  find sample_blank_title "title" [] = Some (Tag "title" [] [Text "   "]) /\
  py_strip (get_text (Tag "title" [] [Text "   "])) = EmptyString /\
  seo_title (seo_facts sample_blank_title) <> None.
Proof. vm_compute. repeat split; discriminate. Qed.

(* ===================================================================== *)
(** * Strings: concatenation and substrings                               *)
(* ===================================================================== *)

Lemma str_app_assoc (a b c : string) : (a +:+ b) +:+ c = a +:+ b +:+ c.
Proof.
  induction a as [|x a IH]; [reflexivity|].
  change (String x ((a +:+ b) +:+ c) = String x (a +:+ b +:+ c)). rewrite IH. reflexivity.
Qed.

Lemma str_app_nil_r (a : string) : a +:+ EmptyString = a.
Proof.
  induction a as [|x a IH]; [reflexivity|].
  change (String x (a +:+ EmptyString) = String x a). rewrite IH. reflexivity.
Qed.

Lemma str_app_length (a b : string) :
  String.length (a +:+ b) = (String.length a + String.length b)%nat.
Proof.
  induction a as [|x a IH]; [reflexivity|].
  change (S (String.length (a +:+ b)) = S (String.length a + String.length b)).
  rewrite IH. reflexivity.
Qed.

Lemma str_prefix_app (p rest : string) : String.prefix p (p +:+ rest) = true.
Proof.
  induction p as [|x p IH]; [destruct rest; reflexivity|].
  change (String.prefix (String x p) (String x (p +:+ rest)) = true).
  cbn [String.prefix]. destruct (ascii_dec x x); [exact IH|congruence].
Qed.

Lemma str_substring_app (a b : string) : substring 0 (String.length a) (a +:+ b) = a.
Proof. apply prefix_correct, str_prefix_app. Qed.

(** [needle in hay] holds exactly when [hay] splits around [needle]. *)
Lemma py_in_spec (needle hay : string) :
  py_in needle hay = true <-> exists pre post, hay = pre +:+ needle +:+ post.
Proof.
  split.
  - induction hay as [|c hay IH]; cbn [py_in]; intros H.
    + rewrite orb_false_r in H. destruct (prefix_append _ _ H) as [rest ->].
      exists EmptyString, rest. reflexivity.
    + apply orb_prop in H as [H|H].
      * destruct (prefix_append _ _ H) as [rest ->]. exists EmptyString, rest. reflexivity.
      * destruct (IH H) as (pre & post & ->). exists (String c pre), post. reflexivity.
  - intros (pre & post & ->). induction pre as [|c pre IH].
    + change (EmptyString +:+ needle +:+ post) with (needle +:+ post).
      destruct (needle +:+ post) eqn:E; cbn [py_in]; rewrite <- E, str_prefix_app; reflexivity.
    + change (String c pre +:+ needle +:+ post) with (String c (pre +:+ needle +:+ post)).
      cbn [py_in]. rewrite IH. apply orb_true_r.
Qed.

(** A substring of a substring is a substring. *)
Lemma py_in_trans (a b c : string) :
  py_in a b = true -> py_in b c = true -> py_in a c = true.
Proof.
  rewrite !py_in_spec. intros (p1 & q1 & ->) (p2 & q2 & ->).
  exists (p2 +:+ p1), (q1 +:+ q2). rewrite !str_app_assoc. reflexivity.
Qed.

(** The empty string occurs in every string. *)
Lemma py_in_empty (s : string) : py_in EmptyString s = true.
Proof. destruct s; reflexivity. Qed.

Lemma all_chars_app cls (a b : string) :
  all_chars cls (a +:+ b) = all_chars cls a && all_chars cls b.
Proof.
  induction a as [|x a IH]; [reflexivity|].
  change (cls x && all_chars cls (a +:+ b) = cls x && all_chars cls a && all_chars cls b).
  rewrite IH. apply andb_assoc.
Qed.

(* ===================================================================== *)
(** * Pattern matching: what a match looks like                           *)
(* ===================================================================== *)

(** A greedy repetition hands its continuation a run of characters of the
    class and the text after it. *)
Lemma greedy_inv {R} cls (k : string -> string -> option R) taken s r :
  greedy cls k taken s = Some r ->
  exists more rest, s = more +:+ rest /\ all_chars cls more = true /\
                    k (taken +:+ more) rest = Some r.
Proof.
  revert taken. induction s as [|c s IH]; intros taken; cbn [greedy].
  - intros H. exists EmptyString, EmptyString. rewrite (str_app_nil_r taken).
    split; [reflexivity|]. split; [reflexivity|exact H].
  - destruct (cls c) eqn:Hc.
    + destruct (greedy cls k (taken +:+ String c EmptyString) s) as [r'|] eqn:E.
      * intros [= <-]. destruct (IH _ E) as (more & rest & -> & Hall & Hk).
        exists (String c more), rest. split; [reflexivity|]. split.
        -- cbn [all_chars]. rewrite Hc, Hall. reflexivity.
        -- rewrite str_app_assoc in Hk. exact Hk.
      * intros H. exists EmptyString, (String c s). rewrite (str_app_nil_r taken).
        split; [reflexivity|]. split; [reflexivity|exact H].
    + intros H. exists EmptyString, (String c s). rewrite (str_app_nil_r taken).
      split; [reflexivity|]. split; [reflexivity|exact H].
Qed.

(** A pattern that starts with literal text matches only texts that start
    with it. *)
Lemma match_here_lit_inv p re s n cap r :
  match_here (lit p ++ re) s n cap = Some r ->
  exists rest, s = p +:+ rest /\ match_here re rest (n + String.length p) cap = Some r.
Proof.
  revert s n. induction p as [|c p IH]; intros s n; cbn [lit app String.length].
  - intros H. exists s. split; [reflexivity|]. rewrite Nat.add_0_r. exact H.
  - cbn [match_here]. destruct s as [|c' s]; [discriminate|].
    destruct (Ascii.eqb_spec c c') as [<-|]; [|discriminate].
    intros H. destruct (IH _ _ H) as (rest & -> & Hm). exists rest.
    split; [reflexivity|]. rewrite <- Hm. f_equal. lia.
Qed.

(** A match of literal text followed by one greedy repetition: the text
    starts with the literal and a non-empty run of the class, and the match
    is the two together. *)
Lemma match_here_lit_plus p cls s m :
  match_here (lit p ++ [Plus cls]) s 0 None = Some m ->
  exists run rest, s = p +:+ run +:+ rest /\ run <> EmptyString /\
    all_chars cls run = true /\ match_result s m = p +:+ run.
Proof.
  intros H. destruct (match_here_lit_inv _ _ _ _ _ _ H) as (rest & -> & Hm).
  cbn [match_here] in Hm. destruct rest as [|c rest]; [discriminate|].
  destruct (cls c) eqn:Hc; [|discriminate].
  apply greedy_inv in Hm as (more & rest' & -> & Hall & Hk).
  cbn [match_here] in Hk. injection Hk as <-.
  exists (String c more), rest'. split; [reflexivity|]. split; [discriminate|].
  split; [cbn [all_chars]; rewrite Hc, Hall; reflexivity|].
  cbn [match_result].
  change (String c (more +:+ rest')) with (String c more +:+ rest').
  rewrite <- str_app_assoc.
  rewrite <- (str_substring_app (p +:+ String c more) rest') at 2.
  f_equal. rewrite !str_app_length. cbn [String.length]. lia.
Qed.

(** Such a pattern matches at the start of a text exactly when the text
    starts with the literal followed by a character of the class. *)
Lemma match_here_lit_plus_iff p cls s :
  is_Some (match_here (lit p ++ [Plus cls]) s 0 None) <->
  exists c rest, s = p +:+ String c rest /\ cls c = true.
Proof.
  split.
  - intros [m H]. destruct (match_here_lit_plus _ _ _ _ H) as (run & rest & -> & Hne & Hall & _).
    destruct run as [|c run]; [congruence|]. exists c, (run +:+ rest).
    split; [reflexivity|]. cbn [all_chars] in Hall. apply andb_prop in Hall. tauto.
  - intros (c & rest & -> & Hc). rewrite match_here_lit. cbn [match_here]. rewrite Hc.
    apply greedy_is_Some. intros; eexists; reflexivity.
Qed.

(** The pattern is found in a text exactly when it matches at the start of
    one of its suffixes. *)
Lemma re_search_spec re s :
  re_search re s = true <->
  exists pre suf, s = pre +:+ suf /\ is_Some (match_here re suf 0 None).
Proof.
  split.
  - induction s as [|c s IH]; cbn [re_search].
    + destruct (match_here re EmptyString 0 None) eqn:E; [|discriminate].
      intros _. exists EmptyString, EmptyString. rewrite E. split; [reflexivity|eauto].
    + destruct (match_here re (String c s) 0 None) eqn:E.
      * intros _. exists EmptyString, (String c s). rewrite E. split; [reflexivity|eauto].
      * intros H. destruct (IH H) as (pre & suf & -> & Hm).
        exists (String c pre), suf. split; [reflexivity|exact Hm].
  - intros (pre & suf & -> & [m Hm]). induction pre as [|c pre IH].
    + change (EmptyString +:+ suf) with suf. destruct suf; cbn [re_search]; rewrite Hm; reflexivity.
    + change (String c pre +:+ suf) with (String c (pre +:+ suf)). cbn [re_search].
      destruct (match_here re (String c (pre +:+ suf)) 0 None); [reflexivity|exact IH].
Qed.

(** Literal text followed by a greedy repetition is found exactly in the
    texts that contain the literal followed by a character of the class. *)
Lemma re_search_lit_plus p cls text :
  re_search (lit p ++ [Plus cls]) text = true <->
  exists c, cls c = true /\ py_in (p +:+ String c EmptyString) text = true.
Proof.
  rewrite re_search_spec. split.
  - intros (pre & suf & -> & Hm).
    apply match_here_lit_plus_iff in Hm as (c & rest & -> & Hc).
    exists c. split; [exact Hc|]. apply py_in_spec. exists pre, rest.
    rewrite str_app_assoc. reflexivity.
  - intros (c & Hc & Hin). apply py_in_spec in Hin as (pre & post & ->).
    exists pre, ((p +:+ String c EmptyString) +:+ post). split; [reflexivity|].
    apply match_here_lit_plus_iff. exists c, post. split; [|exact Hc].
    rewrite str_app_assoc. reflexivity.
Qed.

(** Every string [findall] reports is the result of a match at the start
    of a suffix of the text. *)
Lemma findall_from_elem re s skip x :
  x ∈ findall_from re s skip ->
  exists pre suf m, s = pre +:+ suf /\ match_here re suf 0 None = Some m /\
                    x = match_result suf m.
Proof.
  revert skip. induction s as [|c s IH]; intros skip; cbn [findall_from].
  - destruct skip; [|intros H; destruct (not_elem_of_nil _ H)].
    destruct (match_here re EmptyString 0 None) as [m|] eqn:E;
      [|intros H; destruct (not_elem_of_nil _ H)].
    rewrite list_elem_of_singleton. intros ->.
    exists EmptyString, EmptyString, m. auto.
  - destruct skip as [|k].
    + destruct (match_here re (String c s) 0 None) as [m|] eqn:E.
      * rewrite elem_of_cons. intros [->|H].
        -- exists EmptyString, (String c s), m. auto.
        -- destruct (IH _ H) as (pre & suf & m' & -> & Hm & ->).
           exists (String c pre), suf, m'. auto.
      * intros H. destruct (IH _ H) as (pre & suf & m' & -> & Hm & ->).
        exists (String c pre), suf, m'. auto.
    + intros H. destruct (IH _ H) as (pre & suf & m' & -> & Hm & ->).
      exists (String c pre), suf, m'. auto.
Qed.

Lemma py_in_cons g c s : py_in g s = true -> py_in g (String c s) = true.
Proof. intros H. cbn [py_in]. rewrite H. apply orb_true_r. Qed.

Lemma py_in_app_r g pre s : py_in g s = true -> py_in g (pre +:+ s) = true.
Proof.
  intros H. induction pre as [|c pre IH]; [exact H|].
  change (String c pre +:+ s) with (String c (pre +:+ s)). apply py_in_cons, IH.
Qed.

Lemma py_in_prefix g rest : py_in g (g +:+ rest) = true.
Proof. apply py_in_spec. exists EmptyString, rest. reflexivity. Qed.

(** The group a match reports: the one given at the start when the pattern
    has no group, and otherwise a non-empty run of characters of the
    group's class that occurs in the text. *)
Lemma match_here_capture cls re s n cap m c :
  Forall (group_of cls) re ->
  match_here re s n cap = Some (m, c) ->
  (has_group re = false /\ c = cap) \/
  (exists g, c = Some g /\ g <> EmptyString /\ all_chars cls g = true /\ py_in g s = true).
Proof.
  intros Hre. revert s n cap.
  induction Hre as [|a re Ha Hre IH]; intros s n cap; cbn [match_here].
  - intros [= <- <-]. left. split; reflexivity.
  - destruct a as [c0|cls0|cls0|cls0|cls0]; cbn [has_group existsb orb].
    + destruct s as [|c' s]; [discriminate|]. destruct (Ascii.eqb c0 c'); [|discriminate].
      intros H. destruct (IH _ _ _ H) as [?|(g & ? & ? & ? & Hin)]; [left; assumption|].
      right. exists g. repeat split; try assumption. apply py_in_cons, Hin.
    + destruct s as [|c' s]; [discriminate|]. destruct (cls0 c'); [|discriminate].
      intros H. destruct (IH _ _ _ H) as [?|(g & ? & ? & ? & Hin)]; [left; assumption|].
      right. exists g. repeat split; try assumption. apply py_in_cons, Hin.
    + intros H. apply greedy_inv in H as (more & rest & -> & _ & H).
      destruct (IH _ _ _ H) as [?|(g & ? & ? & ? & Hin)]; [left; assumption|].
      right. exists g. repeat split; try assumption. apply py_in_app_r, Hin.
    + destruct s as [|c' s]; [discriminate|]. destruct (cls0 c'); [|discriminate].
      intros H. apply greedy_inv in H as (more & rest & -> & _ & H).
      destruct (IH _ _ _ H) as [?|(g & ? & ? & ? & Hin)]; [left; assumption|].
      right. exists g. repeat split; try assumption. apply py_in_cons, py_in_app_r, Hin.
    + cbn [group_of] in Ha. subst cls0.
      destruct s as [|c' s]; [discriminate|]. destruct (cls c') eqn:Hc; [|discriminate].
      intros H. apply greedy_inv in H as (more & rest & -> & Hall & H).
      change (String c' EmptyString +:+ more) with (String c' more) in H.
      right. destruct (IH _ _ _ H) as [[_ ->]|(g & ? & ? & ? & Hin)].
      * exists (String c' more). split; [reflexivity|]. split; [discriminate|].
        split; [cbn [all_chars]; rewrite Hc, Hall; reflexivity|].
        change (String c' (more +:+ rest)) with (String c' more +:+ rest).
        apply py_in_prefix.
      * exists g. repeat split; try assumption. apply py_in_cons, py_in_app_r, Hin.
Qed.

(** What [findall] reports for a pattern with one group class: non-empty
    runs of the class that occur in the text. *)
Lemma re_findall_group cls re text x :
  Forall (group_of cls) re -> has_group re = true ->
  x ∈ re_findall re text ->
  x <> EmptyString /\ all_chars cls x = true /\ py_in x text = true.
Proof.
  intros Hre Hg Hx. unfold re_findall in Hx.
  apply findall_from_elem in Hx as (pre & suf & [m c] & -> & Hm & ->).
  destruct (match_here_capture _ _ _ _ _ _ _ Hre Hm) as [[Hno _]|(g & -> & Hne & Hall & Hin)];
    [congruence|].
  cbn [match_result]. repeat split; try assumption. apply py_in_app_r, Hin.
Qed.

(** What [findall] reports for literal text followed by a repetition. *)
Lemma re_findall_lit_plus p cls text x :
  x ∈ re_findall (lit p ++ [Plus cls]) text ->
  exists run, x = p +:+ run /\ run <> EmptyString /\ all_chars cls run = true /\
              py_in x text = true.
Proof.
  intros Hx. unfold re_findall in Hx.
  apply findall_from_elem in Hx as (pre & suf & m & -> & Hm & ->).
  destruct (match_here_lit_plus _ _ _ _ Hm) as (run & rest & -> & Hne & Hall & ->).
  exists run. repeat split; try assumption.
  apply py_in_app_r. rewrite <- str_app_assoc. apply py_in_prefix.
Qed.

(** A provider is flagged exactly when an id is reported for it. *)
Lemma detect_ids re text :
  detected (detect re text) = true <-> exists id, id ∈ ids (detect re text).
Proof.
  unfold detect. cbn [detected ids].
  destruct (re_findall re text) as [|x l]; cbn [length].
  - split; [discriminate|]. intros [id Hid]. rewrite list_to_set_nil in Hid.
    destruct (not_elem_of_empty (C := gset string) _ Hid).
  - split; [|reflexivity]. intros _. exists x. apply elem_of_list_to_set.
    apply elem_of_cons. left. reflexivity.
Qed.

(* ===================================================================== *)
(** * The tracking analyzer: what is detected, and the ids reported       *)
(* ===================================================================== *)

(** The error of a provider's rule is among the tracking issues exactly
    when the rule fires. *)
Lemma tracking_issue_by_title text title :
  (exists i, i ∈ tracking_issues text /\ i_title i = title) <->
  (exists i, (i ∈ gtm_issues (tracking_facts text) \/ i ∈ ga4_issues (tracking_facts text) \/
              i ∈ google_ads_issues (tracking_facts text) \/
              i ∈ facebook_issues (tracking_facts text)) /\ i_title i = title).
Proof.
  unfold tracking_issues. cbv zeta.
  split; intros (i & H & Ht); exists i; (split; [|exact Ht]);
    rewrite ?elem_of_app in *; tauto.
Qed.

(** X1. Google Tag Manager, Google Analytics 4 and the Google Ads tag are
    detected exactly when the text contains GTM-, G- or AW- followed by a
    character of the id (an upper-case letter or a digit; for AW- a digit),
    wherever that occurs; and the analyzer reports the provider's error
    exactly when it is not detected. *)
Theorem google_tags_detected_by_substring (text : string) :
  let t := tracking_facts text in
  let reported title := exists i, i ∈ tracking_issues text /\ i_title i = title in
  (detected (trk_gtm t) = true <->
     exists c, cls_upper_digit c = true /\ py_in ("GTM-" +:+ String c EmptyString) text = true) /\
  (detected (trk_ga4 t) = true <->
     exists c, cls_upper_digit c = true /\ py_in ("G-" +:+ String c EmptyString) text = true) /\
  (detected (trk_google_ads t) = true <->
     exists c, py_isdigit c = true /\ py_in ("AW-" +:+ String c EmptyString) text = true) /\
  (reported "Google Tag Manager nedetectat" <-> detected (trk_gtm t) = false) /\
  (reported "Google Analytics 4 nedetectat" <-> detected (trk_ga4 t) = false) /\
  (reported "Google Ads Conversion Tag absent" <-> detected (trk_google_ads t) = false).
Proof.
  intros t reported.
  split; [unfold t; cbn [tracking_facts trk_gtm]; rewrite detect_detected;
          apply (re_search_lit_plus "GTM-")|].
  split; [unfold t; cbn [tracking_facts trk_ga4]; rewrite detect_detected;
          apply (re_search_lit_plus "G-")|].
  split; [unfold t; cbn [tracking_facts trk_google_ads]; rewrite detect_detected;
          apply (re_search_lit_plus "AW-")|].
  unfold reported. rewrite !tracking_issue_by_title. fold t.
  repeat split.
  - intros (i & [H|[H|[H|H]]] & Ht); revert H Ht.
    + unfold gtm_issues. destruct (detected (trk_gtm t)); [|reflexivity].
      cbn [negb]. intros H. destruct (not_elem_of_nil _ H).
    + unfold ga4_issues. other_rule.
    + unfold google_ads_issues. other_rule.
    + unfold facebook_issues. other_rule.
  - intros H. eexists. split; [left; unfold gtm_issues; rewrite H; cbn [negb];
      apply list_elem_of_singleton; reflexivity|reflexivity].
  - intros (i & [H|[H|[H|H]]] & Ht); revert H Ht.
    + unfold gtm_issues. other_rule.
    + unfold ga4_issues. destruct (detected (trk_ga4 t)); [|reflexivity].
      cbn [negb]. intros H. destruct (not_elem_of_nil _ H).
    + unfold google_ads_issues. other_rule.
    + unfold facebook_issues. other_rule.
  - intros H. eexists. split; [right; left; unfold ga4_issues; rewrite H; cbn [negb];
      apply list_elem_of_singleton; reflexivity|reflexivity].
  - intros (i & [H|[H|[H|H]]] & Ht); revert H Ht.
    + unfold gtm_issues. other_rule.
    + unfold ga4_issues. other_rule.
    + unfold google_ads_issues. destruct (detected (trk_google_ads t)); [|reflexivity].
      cbn [negb]. intros H. destruct (not_elem_of_nil _ H).
    + unfold facebook_issues. other_rule.
  - intros H. eexists. split; [right; right; left; unfold google_ads_issues; rewrite H;
      cbn [negb]; apply list_elem_of_singleton; reflexivity|reflexivity].
Qed.

(** X2. Every id the tracking analyzer reports for Google Tag Manager,
    Google Analytics 4 and Google Ads is the prefix GTM-, G- or AW- followed
    by a non-empty run of upper-case letters and digits (digits for AW-),
    and occurs in the text; a provider is flagged as detected exactly when
    at least one id is reported for it. *)
Theorem google_tag_ids_well_formed (text : string) :
  let t := tracking_facts text in
  let well_formed prefix cls (d : detection) :=
    (forall id, id ∈ ids d ->
       exists run, id = prefix +:+ run /\ run <> EmptyString /\ all_chars cls run = true /\
                   py_in id text = true) /\
    (detected d = true <-> exists id, id ∈ ids d) in
  well_formed "GTM-" cls_upper_digit (trk_gtm t) /\
  well_formed "G-" cls_upper_digit (trk_ga4 t) /\
  well_formed "AW-" py_isdigit (trk_google_ads t).
Proof.
  intros t well_formed. unfold well_formed, t. cbn [tracking_facts trk_gtm trk_ga4 trk_google_ads].
  assert (forall p cls id, id ∈ ids (detect (lit p ++ [Plus cls]) text) ->
            exists run, id = p +:+ run /\ run <> EmptyString /\ all_chars cls run = true /\
                        py_in id text = true) as Hids.
  { intros p cls id Hid. unfold detect in Hid. cbn [ids] in Hid.
    apply elem_of_list_to_set in Hid. exact (re_findall_lit_plus p _ _ _ Hid). }
  split; [split; [exact (Hids "GTM-" cls_upper_digit)|apply detect_ids]|].
  split; [split; [exact (Hids "G-" cls_upper_digit)|apply detect_ids]|].
  split; [exact (Hids "AW-" py_isdigit)|apply detect_ids].
Qed.

(** X3. Every Facebook Pixel id the tracking analyzer reports is a
    non-empty string of decimal digits, every TikTok Pixel id a non-empty
    string of upper-case letters and digits, and each occurs in the text; a
    pixel is flagged as detected exactly when at least one id is reported. *)
Theorem pixel_ids_well_formed (text : string) :
  let t := tracking_facts text in
  let well_formed cls (d : detection) :=
    (forall id, id ∈ ids d ->
       id <> EmptyString /\ all_chars cls id = true /\ py_in id text = true) /\
    (detected d = true <-> exists id, id ∈ ids d) in
  well_formed py_isdigit (trk_facebook_pixel t) /\
  well_formed cls_upper_digit (trk_tiktok_pixel t).
Proof.
  intros t well_formed. unfold well_formed, t.
  cbn [tracking_facts trk_facebook_pixel trk_tiktok_pixel].
  assert (forall cls re id, Forall (group_of cls) re -> has_group re = true ->
            id ∈ ids (detect re text) ->
            id <> EmptyString /\ all_chars cls id = true /\ py_in id text = true) as Hids.
  { intros cls re id Hre Hg Hid. unfold detect in Hid. cbn [ids] in Hid.
    apply elem_of_list_to_set in Hid. exact (re_findall_group cls re text id Hre Hg Hid). }
  split; (split; [|apply detect_ids]); intros id Hid.
  - apply (Hids py_isdigit fb_pixel_pattern id); [|reflexivity|exact Hid].
    unfold fb_pixel_pattern. repeat constructor.
  - apply (Hids cls_upper_digit tiktok_pattern id); [|reflexivity|exact Hid].
    unfold tiktok_pattern. repeat constructor.
Qed.

(* ===================================================================== *)
(** * The state a full analysis ends in                                   *)
(* ===================================================================== *)

(** Platform detection, as one pair. *)
Lemma detect_platform_pair a :
  detect_platform a
  = (with_results a
       (set_platform
          match scan_platforms platforms (html_lower a) with
          | Some p => py_capitalize p
          | None => "Unknown"
          end (self_results a)),
     scan_platforms platforms (html_lower a)).
Proof. unfold detect_platform. destruct (scan_platforms _ _); reflexivity. Qed.

(** The three conditional appends of the opportunity generator. *)
Lemma opportunities_appended (o : list opportunity) (gads many recognized : bool)
    (p : string) :
  (if recognized
   then (if many
         then (if negb gads then o ++ [google_ads_setup] else o) ++ [seo_on_page]
         else if negb gads then o ++ [google_ads_setup] else o) ++ [platform_specific p]
   else if many
        then (if negb gads then o ++ [google_ads_setup] else o) ++ [seo_on_page]
        else if negb gads then o ++ [google_ads_setup] else o)
  = o ++ (if gads then [] else [google_ads_setup]) ++ (if many then [seo_on_page] else [])
      ++ (if recognized then [platform_specific p] else []).
Proof.
  destruct gads, many, recognized; cbn [negb app]; rewrite <- ?app_assoc, ?app_nil_r;
    reflexivity.
Qed.

(** The results of a full analysis of a fetched page, field by field. *)
Lemma run_full_analysis_fetched text tree a :
  let r := self_results a in
  let platform := match scan_platforms platforms (py_lower text) with
                  | Some p => py_capitalize p
                  | None => "Unknown"
                  end in
  let tracking := tracking_facts text in
  let technical := technical_facts (url a) (domain a) text tree in
  let pixel := detected (trk_facebook_pixel tracking) in
  let meta_ads :=
    if pixel
    then MetaAdsFindings true (inr "detected") []
           ["Facebook Pixel activ - probabil rulează campanii Meta"]
    else MetaAdsFindings true (inl 0) [] [] in
  let issues :=
    res_issues r ++ seo_issues tree ++ tracking_issues text
    ++ technical_issues (url a) (domain a) text tree
    ++ (if pixel then [] else [meta_ads_unknown]) in
  let scores :=
    <["meta_ads" := if pixel then 70 else 40]>
      (<["technical" :=
           category_score Technical 15 8 (technical_issues (url a) (domain a) text tree)]>
         (<["tracking" := category_score Tracking 18 10 (tracking_issues text)]>
            (<["seo" := category_score Seo 15 8 (seo_issues tree)]> (res_scores r)))) in
  let opportunities :=
    res_opportunities r
    ++ (if pixel then [meta_ads_audit] else [])
    ++ (if detected (trk_google_ads tracking) then [] else [google_ads_setup])
    ++ (if (2 <=? length (List.filter (fun i => bool_decide (i_category i = Seo)) issues))%nat
        then [seo_on_page] else [])
    ++ (if existsb (String.eqb platform) recognized_platforms
        then [platform_specific platform] else []) in
  run_full_analysis (Fetched text tree) a
  = Some (Analyzer (url a) (domain a) (Some text) (Some tree)
            (Results (res_url r) (res_domain r) (Some platform) (Some (seo_facts tree))
               (Some technical) (Some tracking) (Some meta_ads)
               (<["overall" := py_round (weighted_sum scores)]> scores)
               issues opportunities (res_error r))).
Proof.
  intros r platform tracking technical pixel meta_ads issues scores opportunities.
  assert (scores <> ∅) as Hne by apply insert_non_empty.
  revert Hne.
  subst r platform tracking technical pixel meta_ads issues scores opportunities.
  destruct a as [u d h s r]. destruct r as [ru rd rp rseo rtech rtrk rmeta rsc ris rop rerr].
  unfold run_full_analysis, crawl. rewrite detect_platform_pair.
  cbn [url domain self_results negb].
  rewrite (html_lower_fetched (Analyzer u d (Some text) (Some tree)
             (Results ru rd rp rseo rtech rtrk rmeta rsc ris rop rerr)) text eq_refl).
  destruct (detected (trk_facebook_pixel (tracking_facts text))) eqn:Hpixel;
    intros Hne;
    cbv beta iota zeta delta
      [analyze_seo analyze_tracking analyze_technical check_meta_ads_library has_fb_pixel
       with_results set_platform set_seo set_technical set_tracking set_meta_ads
       set_score extend_issues set_opportunities self_results url domain html soup
       res_url res_domain res_platform res_seo res_technical res_tracking res_meta_ads
       res_scores res_issues res_opportunities res_error mbind option_bind default id];
    rewrite Hpixel;
    cbv beta iota zeta delta
      [calculate_overall_score generate_opportunities google_ads_detected
       is_recognized with_results set_platform set_seo set_technical set_tracking set_meta_ads
       set_score extend_issues set_opportunities self_results url domain html soup
       res_url res_domain res_platform res_seo res_technical res_tracking res_meta_ads
       res_scores res_issues res_opportunities res_error mbind option_bind default id];
    rewrite (decide_False (P := _ = ∅)) by exact Hne;
    rewrite opportunities_appended; rewrite <- ?app_assoc, ?app_nil_r; reflexivity.
Qed.

(* ===================================================================== *)
(** * Errors and warnings of each analyzer                                *)
(* ===================================================================== *)

Lemma errors_of_app c l1 l2 : errors_of c (l1 ++ l2) = errors_of c l1 ++ errors_of c l2.
Proof. apply List.filter_app. Qed.

Lemma warnings_of_app c l1 l2 : warnings_of c (l1 ++ l2) = warnings_of c l1 ++ warnings_of c l2.
Proof. apply List.filter_app. Qed.

(** Issues of another category count neither as errors nor as warnings. *)
Lemma errors_warnings_other c l :
  Forall (fun i => i_category i <> c) l -> errors_of c l = [] /\ warnings_of c l = [].
Proof.
  unfold errors_of, warnings_of. induction 1 as [|i l Hi _ [IH1 IH2]]; [split; reflexivity|].
  cbn [List.filter]. rewrite (bool_decide_eq_false_2 _ Hi). cbn [andb]. split; assumption.
Qed.

(** Issues of the category are errors or warnings. *)
Lemma errors_warnings_all c l :
  Forall (fun i => i_category i = c) l ->
  (length (errors_of c l) + length (warnings_of c l) = length l)%nat.
Proof.
  unfold errors_of, warnings_of. induction 1 as [|i l Hi _ IH]; [reflexivity|].
  cbn [List.filter]. rewrite (bool_decide_eq_true_2 _ Hi). cbn [andb].
  destruct (bool_decide (i_type i = Error)); cbn [negb length]; lia.
Qed.

Lemma errors_of_length c l : (length (errors_of c l) <= length l)%nat.
Proof. pose proof (errors_warnings_length c l). lia. Qed.

Lemma seo_issues_category doc : Forall (fun i => i_category i = Seo) (seo_issues doc).
Proof.
  unfold seo_issues. cbv zeta. repeat (apply Forall_app; split).
  - unfold title_issues. repeat case_match; repeat constructor.
  - unfold meta_description_issues. repeat case_match; repeat constructor.
  - unfold h1_issues. repeat case_match; repeat constructor.
  - unfold image_issues. repeat case_match; repeat constructor.
  - unfold canonical_issues. repeat case_match; repeat constructor.
  - unfold og_issues. repeat case_match; repeat constructor.
  - unfold structured_data_issues. repeat case_match; repeat constructor.
Qed.

Lemma tracking_issues_category text :
  Forall (fun i => i_category i = Tracking) (tracking_issues text).
Proof.
  unfold tracking_issues. cbv zeta. repeat (apply Forall_app; split).
  - unfold gtm_issues. repeat case_match; repeat constructor.
  - unfold ga4_issues. repeat case_match; repeat constructor.
  - unfold google_ads_issues. repeat case_match; repeat constructor.
  - unfold facebook_issues. repeat case_match; repeat constructor.
Qed.

Lemma technical_issues_category u d text doc :
  Forall (fun i => i_category i = Technical) (technical_issues u d text doc).
Proof.
  unfold technical_issues. cbv zeta. repeat (apply Forall_app; split).
  - unfold viewport_issues. repeat case_match; repeat constructor.
  - unfold https_issues. repeat case_match; repeat constructor.
  - unfold external_scripts_issues. repeat case_match; repeat constructor.
  - unfold cookie_issues. repeat case_match; repeat constructor.
Qed.

(** Three rules of the SEO analyzer only warn, so it reports at most four
    errors. *)
Lemma seo_errors_length doc : (length (errors_of Seo (seo_issues doc)) <= 4)%nat.
Proof.
  unfold seo_issues. cbv zeta. rewrite !errors_of_app, !length_app.
  set (f := seo_facts doc).
  assert (length (errors_of Seo (title_issues (seo_title f) (seo_title_length f))) <= 1)%nat
    by (etransitivity; [apply errors_of_length|];
        unfold title_issues; repeat case_match; cbn; lia).
  assert (length (errors_of Seo (meta_description_issues (seo_meta_description f)
                                   (seo_meta_description_length f))) <= 1)%nat
    by (etransitivity; [apply errors_of_length|];
        unfold meta_description_issues; repeat case_match; cbn; lia).
  assert (length (errors_of Seo (h1_issues (seo_h1_count f))) <= 1)%nat
    by (etransitivity; [apply errors_of_length|];
        unfold h1_issues; repeat case_match; cbn; lia).
  assert (length (errors_of Seo (image_issues (seo_images_without_alt f)
                                   (seo_total_images f))) <= 1)%nat
    by (etransitivity; [apply errors_of_length|];
        unfold image_issues; repeat case_match; cbn; lia).
  assert (errors_of Seo (canonical_issues (seo_canonical f)) = []) as ->
    by (unfold canonical_issues; case_match; reflexivity).
  assert (errors_of Seo (og_issues (seo_og_tags f)) = []) as ->
    by (unfold og_issues; case_match; reflexivity).
  assert (errors_of Seo (structured_data_issues (seo_has_structured_data f)) = []) as ->
    by (unfold structured_data_issues; case_match; reflexivity).
  cbn [length]. lia.
Qed.

(** Two rules of the technical analyzer only warn. *)
Lemma technical_errors_length u d text doc :
  (length (errors_of Technical (technical_issues u d text doc)) <= 2)%nat.
Proof.
  unfold technical_issues. cbv zeta. rewrite !errors_of_app, !length_app.
  set (t := technical_facts u d text doc).
  assert (length (errors_of Technical (viewport_issues t)) <= 1)%nat
    by (etransitivity; [apply errors_of_length|];
        unfold viewport_issues; repeat case_match; cbn; lia).
  assert (length (errors_of Technical (https_issues t)) <= 1)%nat
    by (etransitivity; [apply errors_of_length|];
        unfold https_issues; repeat case_match; cbn; lia).
  assert (errors_of Technical (external_scripts_issues t) = []) as ->
    by (unfold external_scripts_issues; case_match; reflexivity).
  assert (errors_of Technical (cookie_issues t) = []) as ->
    by (unfold cookie_issues; case_match; reflexivity).
  cbn [length]. lia.
Qed.

(** With at most [ne] errors among at most [n] issues the score is one of
    [score_values_upto]. *)
Lemma category_score_values_upto c pe pw issues ne n :
  (length (errors_of c issues) <= ne)%nat -> (length issues <= n)%nat ->
  category_score c pe pw issues ∈ score_values_upto pe pw ne n.
Proof.
  intros He Hn. rewrite category_score_counts.
  pose proof (errors_warnings_length c issues) as Hlen.
  unfold score_values_upto.
  apply list_elem_of_bind. exists (length (errors_of c issues)). split.
  - apply list_elem_of_bind. exists (length (warnings_of c issues)). split.
    + apply list_elem_of_singleton. reflexivity.
    + apply elem_of_seq. lia.
  - apply elem_of_seq. lia.
Qed.

(* ===================================================================== *)
(** * The scores of a full analysis                                       *)
(* ===================================================================== *)

(** The issues of a full analysis of a fresh analyzer, counted by
    category: each analyzer's issues are all of its own category. *)
Lemma analysis_issues_by_category u d text doc (extra : list issue) :
  Forall (fun i => i_category i = MetaAds) extra ->
  let issues :=
    seo_issues doc ++ tracking_issues text ++ technical_issues u d text doc ++ extra in
  errors_of Seo issues = errors_of Seo (seo_issues doc) /\
  warnings_of Seo issues = warnings_of Seo (seo_issues doc) /\
  errors_of Tracking issues = errors_of Tracking (tracking_issues text) /\
  warnings_of Tracking issues = warnings_of Tracking (tracking_issues text) /\
  errors_of Technical issues = errors_of Technical (technical_issues u d text doc) /\
  warnings_of Technical issues = warnings_of Technical (technical_issues u d text doc).
Proof.
  intros Hextra issues. unfold issues. rewrite !errors_of_app, !warnings_of_app.
  assert (forall c c' l, c' <> c -> Forall (fun i => i_category i = c') l ->
            errors_of c l = [] /\ warnings_of c l = []) as Hother.
  { intros c c' l Hc Hl. apply errors_warnings_other.
    eapply Forall_impl; [exact Hl|]. intros i ->. exact Hc. }
  pose proof (seo_issues_category doc) as H1.
  pose proof (tracking_issues_category text) as H2.
  pose proof (technical_issues_category u d text doc) as H3.
  destruct (Hother Tracking Seo _ ltac:(discriminate) H1) as [-> ->].
  destruct (Hother Technical Seo _ ltac:(discriminate) H1) as [-> ->].
  destruct (Hother Seo Tracking _ ltac:(discriminate) H2) as [-> ->].
  destruct (Hother Technical Tracking _ ltac:(discriminate) H2) as [-> ->].
  destruct (Hother Seo Technical _ ltac:(discriminate) H3) as [-> ->].
  destruct (Hother Tracking Technical _ ltac:(discriminate) H3) as [-> ->].
  destruct (Hother Seo MetaAds _ ltac:(discriminate) Hextra) as [-> ->].
  destruct (Hother Tracking MetaAds _ ltac:(discriminate) Hextra) as [-> ->].
  destruct (Hother Technical MetaAds _ ltac:(discriminate) Hextra) as [-> ->].
  rewrite ?app_nil_r. cbn [app]. repeat split; reflexivity.
Qed.

Lemma meta_ads_issue_category (pixel : bool) :
  Forall (fun i => i_category i = MetaAds) (if pixel then [] else [meta_ads_unknown]).
Proof. destruct pixel; repeat constructor. Qed.

(** X4. In the result of a full analysis the seo, tracking and technical
    scores are 100 minus 15 (18 for tracking) per error and 8 (10) per
    warning of the category among the reported issues; the analyzers report
    so few issues that the clamping to 0..100 never changes these values:
    the seo score is at least 16, the tracking score at least 28 and the
    technical score at least 54. *)
Theorem category_scores_never_clamped (netloc : string -> string) (u text : string)
    (tree : document) :
  exists a',
    run_full_analysis (Fetched text tree) (WebsiteAnalyzer netloc u) = Some a' /\
    let issues := res_issues (self_results a') in
    let scores := res_scores (self_results a') in
    let errors c := Z.of_nat (length (errors_of c issues)) in
    let warnings c := Z.of_nat (length (warnings_of c issues)) in
    scores !! "seo" = Some (100 - 15 * errors Seo - 8 * warnings Seo) /\
    scores !! "tracking" = Some (100 - 18 * errors Tracking - 10 * warnings Tracking) /\
    scores !! "technical" = Some (100 - 15 * errors Technical - 8 * warnings Technical) /\
    errors Seo <= 4 /\ errors Seo + warnings Seo <= 7 /\
    errors Tracking + warnings Tracking <= 4 /\
    errors Technical <= 2 /\ errors Technical + warnings Technical <= 4 /\
    16 <= 100 - 15 * errors Seo - 8 * warnings Seo /\
    28 <= 100 - 18 * errors Tracking - 10 * warnings Tracking /\
    54 <= 100 - 15 * errors Technical - 8 * warnings Technical.
Proof.
  eexists. split; [apply run_full_analysis_fetched|].
  cbn [self_results res_issues res_scores WebsiteAnalyzer url domain app].
  set (self_url := if py_startswith "http" u then u else "https://" +:+ u).
  set (pixel := detected (trk_facebook_pixel (tracking_facts text))).
  destruct (analysis_issues_by_category self_url (netloc self_url) text tree _
              (meta_ads_issue_category pixel)) as (E1 & W1 & E2 & W2 & E3 & W3).
  cbv zeta in E1, W1, E2, W2, E3, W3. cbv zeta.
  rewrite E1, W1, E2, W2, E3, W3.
  pose proof (seo_errors_length tree) as Hse.
  pose proof (seo_issues_length tree) as Hsl.
  pose proof (errors_warnings_all _ _ (seo_issues_category tree)) as Hsa.
  pose proof (tracking_issues_length text) as Htl.
  pose proof (errors_warnings_all _ _ (tracking_issues_category text)) as Hta.
  pose proof (technical_errors_length self_url (netloc self_url) text tree) as Hce.
  pose proof (technical_issues_length self_url (netloc self_url) text tree) as Hcl.
  pose proof (errors_warnings_all _ _
                (technical_issues_category self_url (netloc self_url) text tree)) as Hca.
  lookup_scores. rewrite !category_score_counts. unfold clamp.
  repeat split; try (f_equal; lia); lia.
Qed.

(* ===================================================================== *)
(** * The range of the overall score                                      *)
(* ===================================================================== *)

Lemma sums_between_sound lo hi p1 p2 p3 p4 x1 x2 x3 x4 :
  sums_between lo hi p1 p2 p3 p4 = true ->
  x1 ∈ p1 -> x2 ∈ p2 -> x3 ∈ p3 -> x4 ∈ p4 ->
  overall_between lo hi (py_sum [x1; x2; x3; x4]) = true.
Proof.
  unfold sums_between. intros H H1 H2 H3 H4.
  rewrite forallb_forall in H. specialize (H x1 (proj1 (list_elem_of_In _ _) H1)). cbv zeta in H.
  rewrite forallb_forall in H. specialize (H x2 (proj1 (list_elem_of_In _ _) H2)). cbv zeta in H.
  rewrite forallb_forall in H. specialize (H x3 (proj1 (list_elem_of_In _ _) H3)). cbv zeta in H.
  rewrite forallb_forall in H. specialize (H x4 (proj1 (list_elem_of_In _ _) H4)).
  exact H.
Qed.

(** The overall score of every combination of scores the analyzers can
    reach, computed in binary64, lies in 31..96. *)
Lemma reachable_sums_between :
  sums_between 31 96
    (products f0_30 (score_values_upto 15 8 4 7)) (products f0_35 (score_values_upto 18 10 4 4))
    (products f0_20 (score_values_upto 15 8 2 4)) (products f0_15 meta_ads_scores) = true.
Proof. vm_cast_no_check (eq_refl true). Qed.

(** On the scores the analyzers can reach the weighted sum is a finite
    float whose rounding lies in 31..96. *)
Lemma reachable_overall_between scores seo tracking technical meta_ads :
  scores !! "seo" = Some seo -> scores !! "tracking" = Some tracking ->
  scores !! "technical" = Some technical -> scores !! "meta_ads" = Some meta_ads ->
  seo ∈ score_values_upto 15 8 4 7 -> tracking ∈ score_values_upto 18 10 4 4 ->
  technical ∈ score_values_upto 15 8 2 4 -> meta_ads ∈ meta_ads_scores ->
  overall_between 31 96 (weighted_sum scores) = true.
Proof.
  intros E1 E2 E3 E4 H1 H2 H3 H4.
  unfold weighted_sum, weights. cbn [map fst snd]. rewrite E1, E2, E3, E4. cbn [default].
  apply (sums_between_sound _ _ _ _ _ _ _ _ _ _ reachable_sums_between);
    apply products_elem; assumption.
Qed.

(** X5. The overall score of a full analysis of a fetched page is at least
    31 and at most 96, whatever the page and the analyzer's earlier state;
    both bounds are reached. *)
Theorem overall_score_between_31_and_96 :
  (forall (text : string) (tree : document) (a : analyzer),
     exists a' overall,
       run_full_analysis (Fetched text tree) a = Some a' /\
       res_scores (self_results a') !! "overall" = Some overall /\
       31 <= overall <= 96) /\
  (exists a',
     run_full_analysis (Fetched sample_worst_text sample_worst_tree)
       (WebsiteAnalyzer sample_netloc "http://example.com") = Some a' /\
     res_scores (self_results a') !! "overall" = Some 31) /\
  (exists a',
     run_full_analysis (Fetched sample_best_text sample_best_tree)
       (WebsiteAnalyzer sample_netloc "example.com") = Some a' /\
     res_scores (self_results a') !! "overall" = Some 96).
Proof.
  split; [|split].
  - intros text tree a. eexists _, _. split; [apply run_full_analysis_fetched|].
    cbn [self_results res_scores]. split; [apply lookup_insert_eq|].
    set (seo := category_score Seo 15 8 (seo_issues tree)).
    set (tracking := category_score Tracking 18 10 (tracking_issues text)).
    set (technical := category_score Technical 15 8
                        (technical_issues (url a) (domain a) text tree)).
    set (meta_ads := if detected (trk_facebook_pixel (tracking_facts text)) then 70 else 40).
    assert (seo ∈ score_values_upto 15 8 4 7) as V1
      by (apply category_score_values_upto; [apply seo_errors_length|apply seo_issues_length]).
    assert (tracking ∈ score_values_upto 18 10 4 4) as V2
      by (apply category_score_values_upto;
          [etransitivity; [apply errors_of_length|]|]; apply tracking_issues_length).
    assert (technical ∈ score_values_upto 15 8 2 4) as V3
      by (apply category_score_values_upto;
          [apply technical_errors_length|apply technical_issues_length]).
    assert (meta_ads ∈ meta_ads_scores) as V4
      by (unfold meta_ads, meta_ads_scores; case_match;
          [apply elem_of_cons; left | apply elem_of_cons; right; apply elem_of_cons; left];
          reflexivity).
    set (scores := <["meta_ads" := meta_ads]> _).
    assert (overall_between 31 96 (weighted_sum scores) = true) as Hok.
    { apply (reachable_overall_between scores seo tracking technical meta_ads);
        try assumption; unfold scores; lookup_scores; reflexivity. }
    unfold overall_between in Hok.
    apply andb_prop in Hok as [Hok Hhi]. apply andb_prop in Hok as [_ Hlo].
    apply Z.leb_le in Hlo, Hhi. lia.
  - eexists. split; [apply run_full_analysis_fetched|].
    cbn [self_results res_scores]. rewrite lookup_insert_eq.
    vm_compute. reflexivity.
  - eexists. split; [apply run_full_analysis_fetched|].
    cbn [self_results res_scores]. rewrite lookup_insert_eq.
    vm_compute. reflexivity.
Qed.

(* ===================================================================== *)
(** * The score aggregator, run again                                     *)
(* ===================================================================== *)

(** The key 'overall' is not one of the four the weighted sum reads. *)
Lemma weighted_sum_insert_overall v scores :
  weighted_sum (<["overall" := v]> scores) = weighted_sum scores.
Proof.
  unfold weighted_sum, weights. cbn [map fst snd].
  rewrite !lookup_insert_ne by discriminate. reflexivity.
Qed.

(** X6. Computing the overall score a second time changes nothing when
    the scores mapping was not empty; on an empty mapping the first run
    stores 0, which makes the mapping non-empty, and a second run stores
    50, the score of four absent categories. *)
Theorem overall_score_computed_twice (a : analyzer) :
  (res_scores (self_results a) <> ∅ ->
   calculate_overall_score (calculate_overall_score a) = calculate_overall_score a) /\
  (res_scores (self_results a) = ∅ ->
   res_scores (self_results (calculate_overall_score a)) !! "overall" = Some 0 /\
   res_scores (self_results (calculate_overall_score (calculate_overall_score a))) !! "overall"
   = Some 50).
Proof.
  split.
  - intros Hne. unfold calculate_overall_score at 1 3.
    rewrite calculate_overall_score_scores.
    rewrite (decide_False (P := res_scores (self_results a) = ∅)) by exact Hne.
    rewrite (decide_False (P := <["overall" := _]> _ = ∅)) by apply insert_non_empty.
    rewrite weighted_sum_insert_overall.
    unfold calculate_overall_score.
    rewrite (decide_False (P := res_scores (self_results a) = ∅)) by exact Hne.
    unfold with_results, set_score.
    cbn [url domain html soup self_results res_url res_domain res_platform res_seo
         res_technical res_tracking res_meta_ads res_scores res_issues res_opportunities
         res_error].
    rewrite insert_insert_eq. reflexivity.
  - intros Hempty. rewrite !calculate_overall_score_scores.
    rewrite (decide_True (P := res_scores (self_results a) = ∅)) by exact Hempty.
    rewrite (decide_False (P := <["overall" := _]> _ = ∅)) by apply insert_non_empty.
    rewrite !lookup_insert_eq, weighted_sum_insert_overall, Hempty.
    split; [reflexivity|]. vm_compute. reflexivity.
Qed.

(** When the four category scores are one and the same number of 0..100,
    the formula gives that number, also in binary64. *)
Lemma overall_formula_equal_scores :
  forallb (fun v => overall_formula v v v v =? v) (seqZ 0 101) = true.
Proof. vm_compute. reflexivity. Qed.

(** X7. When the four category scores are one and the same number of
    0..100, the overall score is that number: the weights add up to one,
    also in binary64 arithmetic. *)
Theorem overall_of_equal_scores (a : analyzer) (v : Z) :
  0 <= v <= 100 ->
  (forall k, k ∈ ["seo"; "tracking"; "technical"; "meta_ads"] ->
             res_scores (self_results a) !! k = Some v) ->
  res_scores (self_results (calculate_overall_score a)) !! "overall" = Some v.
Proof.
  intros Hv Hall.
  assert (forall k, k ∈ ["seo"; "tracking"; "technical"; "meta_ads"] ->
                    default 50 (res_scores (self_results a) !! k) = v) as Hd
    by (intros k Hk; rewrite (Hall k Hk); reflexivity).
  rewrite calculate_overall_score_scores, lookup_insert_eq. f_equal.
  rewrite decide_False.
  - rewrite weighted_sum_unfold by (rewrite Hd; [lia|apply elem_of_cons; left; reflexivity]).
    rewrite !Hd by (repeat first [apply elem_of_cons; left; reflexivity
                                 |apply elem_of_cons; right]).
    pose proof overall_formula_equal_scores as H. rewrite forallb_forall in H.
    apply Z.eqb_eq. apply (H v). apply list_elem_of_In, elem_of_seqZ. lia.
  - intros Hempty. specialize (Hall "seo" ltac:(apply elem_of_cons; left; reflexivity)).
    rewrite Hempty, lookup_empty in Hall. discriminate.
Qed.

(* ===================================================================== *)
(** * The result of a full analysis                                       *)
(* ===================================================================== *)

Lemma filter_category_all c l :
  Forall (fun i => i_category i = c) l ->
  List.filter (fun i => bool_decide (i_category i = c)) l = l.
Proof.
  induction 1 as [|i l Hi _ IH]; [reflexivity|].
  cbn [List.filter]. rewrite (bool_decide_eq_true_2 _ Hi), IH. reflexivity.
Qed.

Lemma filter_category_none c c' l :
  c' <> c -> Forall (fun i => i_category i = c') l ->
  List.filter (fun i => bool_decide (i_category i = c)) l = [].
Proof.
  intros Hc. induction 1 as [|i l Hi _ IH]; [reflexivity|].
  cbn [List.filter]. rewrite bool_decide_eq_false_2 by congruence. exact IH.
Qed.

(** The issues of category seo among those of a full analysis are the
    issues of the SEO analyzer. *)
Lemma seo_issues_of_analysis u d text doc (pixel : bool) :
  List.filter (fun i => bool_decide (i_category i = Seo))
    (seo_issues doc ++ tracking_issues text ++ technical_issues u d text doc
     ++ (if pixel then [] else [meta_ads_unknown]))
  = seo_issues doc.
Proof.
  rewrite !List.filter_app.
  rewrite (filter_category_all Seo _ (seo_issues_category doc)).
  rewrite (filter_category_none Seo Tracking _ ltac:(discriminate) (tracking_issues_category text)).
  rewrite (filter_category_none Seo Technical _ ltac:(discriminate)
             (technical_issues_category u d text doc)).
  rewrite (filter_category_none Seo MetaAds _ ltac:(discriminate)
             (meta_ads_issue_category pixel)).
  rewrite !app_nil_r. reflexivity.
Qed.

(** X8. A full analysis of a fetched page, started from a new analyzer,
    ends with no error recorded, the target URL and domain as constructed, a
    platform name, the findings of the four analyzers, a score under each of
    the keys seo, tracking, technical, meta_ads and overall and under no
    other key, and the issues of the SEO, tracking and technical analyzers
    and of the Meta Ads check, in that order, sixteen at most. *)
Theorem full_analysis_result (netloc : string -> string) (u text : string) (tree : document) :
  let a := WebsiteAnalyzer netloc u in
  exists a',
    run_full_analysis (Fetched text tree) a = Some a' /\
    let r := self_results a' in
    res_error r = None /\ res_url r = url a /\ res_domain r = domain a /\
    is_Some (res_platform r) /\
    res_seo r = Some (seo_facts tree) /\
    res_tracking r = Some (tracking_facts text) /\
    res_technical r = Some (technical_facts (url a) (domain a) text tree) /\
    is_Some (res_meta_ads r) /\
    (forall k, is_Some (res_scores r !! k) <->
               k ∈ ["seo"; "tracking"; "technical"; "meta_ads"; "overall"]) /\
    res_issues r
    = seo_issues tree ++ tracking_issues text
      ++ technical_issues (url a) (domain a) text tree
      ++ (if has_fb_pixel r then [] else [meta_ads_unknown]) /\
    (length (res_issues r) <= 16)%nat.
Proof.
  intros a. eexists. split; [apply run_full_analysis_fetched|].
  cbn [self_results res_error res_url res_domain res_platform res_seo res_tracking
       res_technical res_meta_ads res_scores res_issues has_fb_pixel].
  change (res_issues (self_results a)) with (@nil issue). cbn [app].
  repeat split; try reflexivity; try (eexists; reflexivity).
  - intros Hk. rewrite !lookup_insert_is_Some in Hk.
    change (res_scores (self_results a)) with (∅ : gmap string Z) in Hk.
    rewrite lookup_empty in Hk.
    rewrite !elem_of_cons.
    destruct Hk as [<-|[_ [<-|[_ [<-|[_ [<-|[_ [<-|[_ Hk]]]]]]]]]]; try tauto.
    destruct Hk as [? Hk]. discriminate.
  - rewrite !elem_of_cons, !lookup_insert_is_Some.
    intros [->|[->|[->|[->|[->|Hk]]]]]; [..|destruct (not_elem_of_nil _ Hk)].
    + right. split; [discriminate|]. right. split; [discriminate|]. right.
      split; [discriminate|]. right. split; [discriminate|]. left. reflexivity.
    + right. split; [discriminate|]. right. split; [discriminate|]. right.
      split; [discriminate|]. left. reflexivity.
    + right. split; [discriminate|]. right. split; [discriminate|]. left. reflexivity.
    + right. split; [discriminate|]. left. reflexivity.
    + left. reflexivity.
  - rewrite !length_app.
    pose proof (seo_issues_length tree).
    pose proof (tracking_issues_length text).
    pose proof (technical_issues_length (url a) (domain a) text tree).
    assert (length (if detected (trk_facebook_pixel (tracking_facts text))
                    then [] else [meta_ads_unknown]) <= 1)%nat
      by (case_match; cbn; lia).
    lia.
Qed.

(** The error of the pixel rule is among the tracking issues when no pixel
    is detected. *)
Lemma tracking_errors_without_pixel text :
  detected (trk_facebook_pixel (tracking_facts text)) = false ->
  (1 <= length (errors_of Tracking (tracking_issues text)))%nat.
Proof.
  intros H. unfold tracking_issues. cbv zeta. rewrite !errors_of_app, !length_app.
  assert (length (errors_of Tracking (facebook_issues (tracking_facts text))) = 1)%nat as ->
    by (unfold facebook_issues; rewrite H; reflexivity).
  lia.
Qed.

(** X9. In a full analysis the Meta Ads check follows the tracking
    analyzer.  When the text holds a Facebook Pixel init call the meta_ads
    score is 70, the Meta Ads audit is the first opportunity and no issue of
    category meta_ads is reported; otherwise the score is 40, the last issue
    is the warning that the presence on Meta Ads is unknown, the audit is
    not proposed, and the tracking score is at most 82. *)
Theorem meta_ads_score_follows_pixel (netloc : string -> string) (u text : string)
    (tree : document) :
  exists a',
    run_full_analysis (Fetched text tree) (WebsiteAnalyzer netloc u) = Some a' /\
    let r := self_results a' in
    (re_search fb_pixel_pattern text = true ->
       res_scores r !! "meta_ads" = Some 70 /\
       head (res_opportunities r) = Some meta_ads_audit /\
       (forall i, i ∈ res_issues r -> i_category i <> MetaAds)) /\
    (re_search fb_pixel_pattern text = false ->
       res_scores r !! "meta_ads" = Some 40 /\
       last (res_issues r) = Some meta_ads_unknown /\
       (meta_ads_audit ∉ res_opportunities r) /\
       exists tracking, res_scores r !! "tracking" = Some tracking /\ tracking <= 82).
Proof.
  eexists. split; [apply run_full_analysis_fetched|].
  cbn [self_results res_scores res_opportunities res_issues WebsiteAnalyzer url domain app].
  set (self_url := if py_startswith "http" u then u else "https://" +:+ u).
  pose proof (detect_detected fb_pixel_pattern text) as Hd.
  change (detect fb_pixel_pattern text) with (trk_facebook_pixel (tracking_facts text)) in Hd.
  split; intros Hpixel; rewrite Hpixel in Hd; rewrite Hd.
  - split; [lookup_scores; reflexivity|]. split; [reflexivity|].
    intros i. rewrite !elem_of_app. intros [Hi|[Hi|[Hi|Hi]]].
    + pose proof (seo_issues_category tree) as H. rewrite Forall_forall in H.
      rewrite (H i Hi). discriminate.
    + pose proof (tracking_issues_category text) as H. rewrite Forall_forall in H.
      rewrite (H i Hi). discriminate.
    + pose proof (technical_issues_category self_url (netloc self_url) text tree) as H.
      rewrite Forall_forall in H. rewrite (H i Hi). discriminate.
    + destruct (not_elem_of_nil _ Hi).
  - split; [lookup_scores; reflexivity|]. split.
    { rewrite !app_assoc. apply last_snoc. }
    split.
    { cbn [app]. rewrite !elem_of_app. intros [H|[H|H]].
      - destruct (detected (trk_google_ads (tracking_facts text)));
          [destruct (not_elem_of_nil _ H)|].
        apply list_elem_of_singleton in H. discriminate H.
      - destruct (2 <=? _)%nat; [|destruct (not_elem_of_nil _ H)].
        apply list_elem_of_singleton in H. discriminate H.
      - destruct (existsb _ recognized_platforms); [|destruct (not_elem_of_nil _ H)].
        apply list_elem_of_singleton in H. discriminate H. }
    eexists. split; [lookup_scores; reflexivity|].
    rewrite category_score_counts. unfold clamp.
    pose proof (tracking_errors_without_pixel text Hd). lia.
Qed.

(* ===================================================================== *)
(** * Opportunities of a full analysis, and a second run                  *)
(* ===================================================================== *)

Lemma existsb_eqb_elem_of (p : string) (l : list string) :
  existsb (String.eqb p) l = bool_decide (p ∈ l).
Proof.
  induction l as [|x l IH]; cbn [existsb].
  - symmetry. apply bool_decide_eq_false_2, not_elem_of_nil.
  - rewrite IH. destruct (String.eqb_spec p x) as [->|Hne]; cbn [orb].
    + symmetry. apply bool_decide_eq_true_2. apply elem_of_cons. left. reflexivity.
    + apply bool_decide_ext. rewrite elem_of_cons. tauto.
Qed.

(** X10. The opportunities of a full analysis started from a new analyzer
    are, in this order: the Meta Ads audit when a Facebook Pixel was
    detected, the Google Ads setup when no Google Ads tag was detected, the
    on-page SEO work when the SEO analyzer reported two issues or more, and
    the platform-specific work when the platform is Merchantpro, Gomag or
    Shopify; four at most. *)
Theorem opportunities_of_full_analysis (netloc : string -> string) (u text : string)
    (tree : document) :
  exists a' platform,
    run_full_analysis (Fetched text tree) (WebsiteAnalyzer netloc u) = Some a' /\
    let r := self_results a' in
    res_platform r = Some platform /\
    res_opportunities r
    = (if has_fb_pixel r then [meta_ads_audit] else [])
      ++ (if google_ads_detected r then [] else [google_ads_setup])
      ++ (if (2 <=? length (seo_issues tree))%nat then [seo_on_page] else [])
      ++ (if bool_decide (platform ∈ ["Merchantpro"; "Gomag"; "Shopify"])
          then [platform_specific platform] else []) /\
    (length (res_opportunities r) <= 4)%nat.
Proof.
  eexists _, _. split; [apply run_full_analysis_fetched|].
  cbn [self_results res_platform res_opportunities res_issues has_fb_pixel google_ads_detected
       res_tracking WebsiteAnalyzer url domain app].
  rewrite seo_issues_of_analysis, existsb_eqb_elem_of.
  split; [reflexivity|]. split; [reflexivity|].
  rewrite !length_app. repeat case_match; cbn [length]; lia.
Qed.

(** The weighted sum reads the four category keys only. *)
Lemma weighted_sum_ext (s1 s2 : gmap string Z) :
  s1 !! "seo" = s2 !! "seo" -> s1 !! "tracking" = s2 !! "tracking" ->
  s1 !! "technical" = s2 !! "technical" -> s1 !! "meta_ads" = s2 !! "meta_ads" ->
  weighted_sum s1 = weighted_sum s2.
Proof.
  intros H1 H2 H3 H4. unfold weighted_sum, weights. cbn [map fst snd].
  rewrite H1, H2, H3, H4. reflexivity.
Qed.

(** Storing the five scores again over a mapping that holds them. *)
Lemma scores_stored_again (seo tracking technical meta_ads overall : Z) (s : gmap string Z) :
  let s1 :=
    <["overall" := overall]>
      (<["meta_ads" := meta_ads]>
         (<["technical" := technical]> (<["tracking" := tracking]> (<["seo" := seo]> s)))) in
  <["overall" := overall]>
    (<["meta_ads" := meta_ads]>
       (<["technical" := technical]> (<["tracking" := tracking]> (<["seo" := seo]> s1))))
  = s1.
Proof.
  intros s1. unfold s1. apply map_eq. intros k.
  destruct (decide (k = "overall")) as [->|H1]; [lookup_scores; reflexivity|].
  rewrite !(lookup_insert_ne _ "overall" k) by congruence.
  destruct (decide (k = "meta_ads")) as [->|H2]; [lookup_scores; reflexivity|].
  rewrite !(lookup_insert_ne _ "meta_ads" k) by congruence.
  destruct (decide (k = "technical")) as [->|H3]; [lookup_scores; reflexivity|].
  rewrite !(lookup_insert_ne _ "technical" k) by congruence.
  destruct (decide (k = "tracking")) as [->|H4]; [lookup_scores; reflexivity|].
  rewrite !(lookup_insert_ne _ "tracking" k) by congruence.
  destruct (decide (k = "seo")) as [->|H5]; [lookup_scores; reflexivity|].
  rewrite !(lookup_insert_ne _ "seo" k) by congruence.
  rewrite !(lookup_insert_ne _ "overall" k) by congruence.
  rewrite !(lookup_insert_ne _ "meta_ads" k) by congruence.
  rewrite !(lookup_insert_ne _ "technical" k) by congruence.
  rewrite !(lookup_insert_ne _ "tracking" k) by congruence.
  rewrite !(lookup_insert_ne _ "seo" k) by congruence.
  reflexivity.
Qed.

(** X11. Running the full analysis a second time on the same analyzer and
    the same page leaves the platform, the findings and the five scores as
    they are, but appends every issue once more, and appends opportunities
    again, among them every opportunity of the first run. *)
Theorem full_analysis_twice (netloc : string -> string) (u text : string) (tree : document) :
  exists a1 a2,
    run_full_analysis (Fetched text tree) (WebsiteAnalyzer netloc u) = Some a1 /\
    run_full_analysis (Fetched text tree) a1 = Some a2 /\
    let r1 := self_results a1 in
    let r2 := self_results a2 in
    res_platform r2 = res_platform r1 /\ res_seo r2 = res_seo r1 /\
    res_tracking r2 = res_tracking r1 /\ res_technical r2 = res_technical r1 /\
    res_meta_ads r2 = res_meta_ads r1 /\
    res_scores r2 = res_scores r1 /\
    res_issues r2 = res_issues r1 ++ res_issues r1 /\
    exists more,
      res_opportunities r2 = res_opportunities r1 ++ more /\
      forall o, o ∈ res_opportunities r1 -> o ∈ more.
Proof.
  eexists _, _. split; [apply run_full_analysis_fetched|].
  split; [apply run_full_analysis_fetched|].
  cbn [self_results res_platform res_seo res_tracking res_technical res_meta_ads res_scores
       res_issues res_opportunities WebsiteAnalyzer url domain app].
  set (self_url := if py_startswith "http" u then u else "https://" +:+ u).
  set (pixel := detected (trk_facebook_pixel (tracking_facts text))).
  do 5 (split; [reflexivity|]).
  split.
  { set (seo := category_score Seo 15 8 (seo_issues tree)).
    set (tracking := category_score Tracking 18 10 (tracking_issues text)).
    set (technical := category_score Technical 15 8
                        (technical_issues self_url (netloc self_url) text tree)).
    set (meta_ads := if pixel then 70 else 40).
    set (s4 := <["meta_ads" := meta_ads]>
                 (<["technical" := technical]>
                    (<["tracking" := tracking]> (<["seo" := seo]> (∅ : gmap string Z))))).
    rewrite (weighted_sum_ext _ s4) by (unfold s4; lookup_scores; reflexivity).
    apply (scores_stored_again seo tracking technical meta_ads). }
  split; [reflexivity|].
  eexists. split; [reflexivity|].
  intros o. rewrite seo_issues_of_analysis, List.filter_app, !seo_issues_of_analysis, length_app.
  rewrite !elem_of_app. intros [H|[H|[H|H]]].
  - left. exact H.
  - right. left. exact H.
  - right. right. left.
    destruct (Nat.leb_spec 2 (length (seo_issues tree))) as [Hle|Hlt];
      [|destruct (not_elem_of_nil _ H)].
    destruct (Nat.leb_spec 2 (length (seo_issues tree) + length (seo_issues tree)));
      [exact H|lia].
  - right. right. right. exact H.
Qed.

(* ===================================================================== *)
(** * Platform detection: what a signature matches                        *)
(* ===================================================================== *)

(** X12. The signature mage of Magento is looked up as a substring, so a
    page whose lower-cased text contains the word image, and no signature of
    the four platforms that come earlier in the table, is reported as
    Magento. *)
Theorem image_word_detected_as_magento (a : analyzer) (text : string) :
  html a = Some text ->
  py_in "image" (py_lower text) = true ->
  (forall name sigs sig,
      (name, sigs) ∈ take 4 platforms -> sig ∈ sigs -> py_in sig (py_lower text) = false) ->
  detect_platform a
  = (with_results a (set_platform "Magento" (self_results a)), Some "magento").
Proof.
  intros Hhtml Himage Hearlier. unfold detect_platform.
  rewrite (html_lower_fetched a text Hhtml).
  rewrite (scan_platforms_first platforms (py_lower text) 4 "magento" ["magento"; "mage"]
             eq_refl); [reflexivity| |].
  - apply has_signature_true. exists "mage". split.
    + apply elem_of_cons. right. apply elem_of_cons. left. reflexivity.
    + apply (py_in_trans "mage" "image"); [reflexivity|exact Himage].
  - intros j [name sigs] Hj He. apply has_signature_false. intros sig Hsig.
    apply (Hearlier name sigs sig); [|exact Hsig].
    apply list_elem_of_lookup. exists j. rewrite lookup_take_lt by exact Hj. exact He.
Qed.

(** The table's keys, capitalized. *)
Lemma platform_keys_capitalized key :
  key ∈ map fst platforms ->
  py_capitalize key ∈ ["Merchantpro"; "Gomag"; "Shopify"; "Woocommerce"; "Magento";
                       "Prestashop"; "Opencart"; "Vtex"] /\
  py_capitalize key <> "Unknown".
Proof.
  unfold platforms. cbn [map fst]. rewrite !elem_of_cons.
  intros [->|[->|[->|[->|[->|[->|[->|[->|H]]]]]]]];
    [..|destruct (not_elem_of_nil _ H)];
    (split; [|discriminate]); repeat first [left; reflexivity | right].
Qed.

(** X13. Platform detection changes nothing but the platform field, in
    which it stores one of nine names: a key of the table with its first
    letter in upper case, or Unknown.  It returns the key itself, in lower
    case, and returns None exactly when it stores Unknown, which is what
    happens when no text was fetched or the text is empty. *)
Theorem detect_platform_values (a : analyzer) :
  let a' := fst (detect_platform a) in
  let returned := snd (detect_platform a) in
  (exists name,
      name ∈ ["Merchantpro"; "Gomag"; "Shopify"; "Woocommerce"; "Magento"; "Prestashop";
              "Opencart"; "Vtex"; "Unknown"] /\
      a' = with_results a (set_platform name (self_results a))) /\
  (returned = None <-> res_platform (self_results a') = Some "Unknown") /\
  (forall key, returned = Some key ->
      key ∈ map fst platforms /\ res_platform (self_results a') = Some (py_capitalize key)) /\
  (html a = None \/ html a = Some EmptyString -> returned = None).
Proof.
  intros a' returned. unfold a', returned, detect_platform.
  destruct (scan_platforms platforms (html_lower a)) as [key|] eqn:Hscan; cbn [fst snd].
  - assert (key ∈ map fst platforms) as Hkey.
    { apply scan_platforms_found in Hscan as (i & sigs & Hi & _).
      apply list_elem_of_fmap. exists (key, sigs). split; [reflexivity|].
      apply list_elem_of_lookup. exists i. exact Hi. }
    destruct (platform_keys_capitalized key Hkey) as [Hcap Hne].
    split; [|split; [|split]].
    + exists (py_capitalize key). split; [|reflexivity].
      rewrite !elem_of_cons in Hcap. rewrite !elem_of_cons. tauto.
    + split; [discriminate|]. cbn [self_results with_results set_platform res_platform].
      intros [= H]. contradiction.
    + intros key' [= <-]. split; [exact Hkey|reflexivity].
    + intros Hhtml. exfalso.
      assert (html_lower a = EmptyString) as Hlow
        by (unfold html_lower; destruct Hhtml as [-> | ->]; reflexivity).
      rewrite Hlow in Hscan. discriminate.
  - split; [|split; [|split]].
    + exists "Unknown". split; [|reflexivity].
      rewrite !elem_of_cons. tauto.
    + split; reflexivity.
    + intros key [=].
    + reflexivity.
Qed.

(* ===================================================================== *)
(** * The technical analyzer                                              *)
(* ===================================================================== *)



(** X15. When the target domain is the empty string (an input with no host,
    such as https://), no script counts as external, however many scripts
    the page loads from other hosts, and the warning about external scripts
    is never given: the empty string occurs in every src. *)
Theorem empty_domain_has_no_external_script (self_url text : string) (doc : document) :
  external_scripts EmptyString doc = [] /\
  tech_external_scripts (technical_facts self_url EmptyString text doc) = 0%nat /\
  ~ (exists i, i ∈ technical_issues self_url EmptyString text doc /\
               i_description i = external_scripts_description).
Proof.
  assert (external_scripts EmptyString doc = []) as Hnone.
  { unfold external_scripts.
    induction (find_all doc "script" [("src", Present)]) as [|s l IH]; [reflexivity|].
    cbn [List.filter]. unfold is_external at 1. rewrite py_in_empty, andb_false_r. exact IH. }
  split; [exact Hnone|].
  assert (tech_external_scripts (technical_facts self_url EmptyString text doc) = 0%nat) as Hzero
    by (cbn [technical_facts tech_external_scripts]; rewrite Hnone; reflexivity).
  split; [exact Hzero|].
  intros (i & Hi & Hd).
  pose proof (proj1 (external_issue_in_technical_issues _ _ _ _ i) (conj Hi Hd)) as Hin.
  unfold external_scripts_issues in Hin. rewrite Hzero in Hin.
  destruct (not_elem_of_nil _ Hin).
Qed.

Lemma bool_filter_length {A} (f : A -> bool) (l : list A) :
  (length (List.filter f l) <= length l)%nat.
Proof.
  induction l as [|x l IH]; [reflexivity|].
  cbn [List.filter]. destruct (f x); cbn [length]; lia.
Qed.

(** A search with more conditions finds no more tags. *)
Lemma find_all_query_length doc name query :
  (length (find_all doc name query) <= length (find_all doc name []))%nat.
Proof.
  unfold find_all. induction (all_nodes doc) as [|n l IH]; [reflexivity|].
  rewrite !filter_cons.
  destruct (decide (tag_matches name query n = true)) as [Hq|Hq].
  - assert (tag_matches name [] n = true) as H0.
    { destruct n as [s|name' attrs cs]; [discriminate|].
      cbn [tag_matches forallb] in *. apply andb_prop in Hq as [-> _]. reflexivity. }
    rewrite decide_True by exact H0. cbn [length]. lia.
  - destruct (decide (tag_matches name [] n = true)); cbn [length]; lia.
Qed.

(** X16. The counts the SEO and technical analyzers record agree with each
    other: no more images without alt than images, at most three heading
    texts and as many as there are headings when fewer, no more minified or
    external scripts than scripts with a src, no more lazy images than
    images, and each flag set exactly when its count is positive. *)
Theorem findings_counts_consistent (self_url self_domain text : string) (doc : document) :
  let seo := seo_facts doc in
  let t := technical_facts self_url self_domain text doc in
  (seo_images_without_alt seo <= seo_total_images seo)%nat /\
  length (seo_h1_texts seo) = Nat.min 3 (seo_h1_count seo) /\
  (seo_has_structured_data seo = true <-> (0 < seo_structured_data_count seo)%nat) /\
  (tech_minified_scripts t <= tech_scripts_count t)%nat /\
  (tech_external_scripts t <= tech_scripts_count t)%nat /\
  (tech_lazy_loading_count t <= seo_total_images seo)%nat /\
  (tech_lazy_loading t = true <-> (0 < tech_lazy_loading_count t)%nat).
Proof.
  intros seo t. unfold seo, t.
  cbn [seo_facts technical_facts seo_images_without_alt seo_total_images seo_h1_texts
       seo_h1_count seo_has_structured_data seo_structured_data_count tech_minified_scripts
       tech_scripts_count tech_external_scripts tech_lazy_loading_count tech_lazy_loading].
  split; [apply bool_filter_length|].
  split; [rewrite length_map, length_take; reflexivity|].
  split; [apply Nat.ltb_lt|].
  split; [apply bool_filter_length|].
  split; [apply bool_filter_length|].
  split; [apply find_all_query_length|apply Nat.ltb_lt].
Qed.

(* ===================================================================== *)
(** * The audit report                                                    *)
(* ===================================================================== *)

(** The loop that appends one line per issue. *)
Lemma report_lines_fold (f : issue -> string) (l : list issue) (init : string) :
  fold_left (fun report i => report +:+ f i) l init = init +:+ str_concat (map f l).
Proof.
  revert init. induction l as [|i l IH]; intros init; cbn [fold_left map str_concat].
  - symmetry. apply str_app_nil_r.
  - rewrite IH. apply str_app_assoc.
Qed.

(** The report is its header, one line for each of the first five issues,
    and its footer. *)
Lemma generate_audit_report_parts (r : results) :
  generate_audit_report r
  = report_header r +:+ str_concat (map issue_line (take 5 (res_issues r))) +:+ report_footer.
Proof.
  unfold generate_audit_report. cbv zeta. rewrite report_lines_fold. apply str_app_assoc.
Qed.

(** X17. The report reads the domain, the platform, the scores under
    overall, seo, tracking and technical, and the first five issues, and
    nothing else: two results that agree on these give the same report,
    whatever their further issues, their meta_ads score, their findings,
    opportunities and error. *)
Theorem report_reads_first_five_issues (r1 r2 : results) :
  res_domain r1 = res_domain r2 ->
  res_platform r1 = res_platform r2 ->
  (forall k, k ∈ ["overall"; "seo"; "tracking"; "technical"] ->
             res_scores r1 !! k = res_scores r2 !! k) ->
  take 5 (res_issues r1) = take 5 (res_issues r2) ->
  generate_audit_report r1 = generate_audit_report r2.
Proof.
  intros Hdomain Hplatform Hscores Hissues.
  rewrite !generate_audit_report_parts, Hissues. f_equal.
  unfold report_header, show_score. cbv zeta.
  rewrite Hdomain, Hplatform.
  rewrite !(Hscores "overall"), !(Hscores "seo"), !(Hscores "tracking"), !(Hscores "technical")
    by (rewrite !elem_of_cons; tauto).
  reflexivity.
Qed.

(** X18. After a failed fetch the report is still produced: it names the
    domain, prints None for the platform and N/A for the four scores, lists
    no issue, and ends with the same closing text as every report. *)
Theorem report_after_failed_fetch (netloc : string -> string) (u e : string) :
  exists a',
    run_full_analysis (FetchRaised e) (WebsiteAnalyzer netloc u) = Some a' /\
    generate_audit_report (self_results a')
    = unlines [EmptyString;
               "---";
               "Website Snapshot:";
               domain (WebsiteAnalyzer netloc u) +:+ " | Platform: None";
               "Scor general: N/A/100 | SEO: N/A | Tracking: N/A | Technical: N/A";
               EmptyString;
               "Key Growth Gaps:"]
      +:+ report_footer.
Proof.
  eexists. split; [reflexivity|].
  rewrite generate_audit_report_parts.
  cbn [self_results with_results set_error res_issues WebsiteAnalyzer take map str_concat].
  reflexivity.
Qed.

(** X19. The report of a full analysis of a fetched page, started from a
    new analyzer, prints the platform name and the overall, seo, tracking
    and technical scores as numbers, and lists the first five issues in the
    order the analyzers ran; when the SEO analyzer reported five issues or
    more, these are SEO issues only. *)
Theorem report_of_full_analysis (netloc : string -> string) (u text : string)
    (tree : document) :
  exists a' platform overall seo tracking technical,
    run_full_analysis (Fetched text tree) (WebsiteAnalyzer netloc u) = Some a' /\
    let r := self_results a' in
    res_platform r = Some platform /\
    res_scores r !! "overall" = Some overall /\ res_scores r !! "seo" = Some seo /\
    res_scores r !! "tracking" = Some tracking /\
    res_scores r !! "technical" = Some technical /\
    generate_audit_report r
    = unlines [EmptyString;
               "---";
               "Website Snapshot:";
               res_domain r +:+ " | Platform: " +:+ platform;
               "Scor general: " +:+ pretty overall +:+ "/100 | SEO: " +:+ pretty seo
                 +:+ " | Tracking: " +:+ pretty tracking
                 +:+ " | Technical: " +:+ pretty technical;
               EmptyString;
               "Key Growth Gaps:"]
      +:+ str_concat (map issue_line (take 5 (res_issues r)))
      +:+ report_footer /\
    ((5 <= length (seo_issues tree))%nat -> take 5 (res_issues r) = take 5 (seo_issues tree)).
Proof.
  eexists _, _, _, _, _, _. split; [apply run_full_analysis_fetched|].
  cbv zeta. rewrite generate_audit_report_parts.
  unfold report_header, show_score, show_platform. cbv zeta.
  cbn [self_results res_platform res_scores res_issues res_domain WebsiteAnalyzer url domain
       app default].
  split; [reflexivity|].
  split; [lookup_scores; reflexivity|]. split; [lookup_scores; reflexivity|].
  split; [lookup_scores; reflexivity|]. split; [lookup_scores; reflexivity|].
  split.
  - lookup_scores. reflexivity.
  - intros Hfive. apply take_app_le. lia.
Qed.

(* ===================================================================== *)
(** * The HTTP interface                                                  *)
(* ===================================================================== *)


Lemma json_truthy_str (u : string) : json_truthy (JStr u) = true <-> u <> EmptyString.
Proof. destruct u; cbn [json_truthy]; split; congruence. Qed.



(** X21. When the page cannot be fetched the handler still answers with
    status 200: the body holds the results with the failure under error, no
    score, no issue and no opportunity, and the report made from them. *)
Theorem analyze_website_fetch_failure (items : list (string * json)) (u d e : string)
    (urlparse_netloc : string -> string + string) :
  dict_get "url" items = JStr u ->
  u <> EmptyString ->
  urlparse_netloc (if py_startswith "http" u then u else "https://" +:+ u) = inl d ->
  exists r,
    analyze_website (GetJsonReturned (JObj items)) urlparse_netloc (FetchRaised e)
    = Some (Response (ResultsPayload r (generate_audit_report r)) 200) /\
    res_error r = Some e /\ res_domain r = d /\
    res_url r = (if py_startswith "http" u then u else "https://" +:+ u) /\
    res_platform r = None /\ res_scores r = ∅ /\ res_issues r = [] /\
    res_opportunities r = [].
Proof.
  intros Hurl Hne Hparse. cbn [analyze_website]. cbv zeta. rewrite Hurl.
  rewrite (proj2 (json_truthy_str u) Hne). cbn [negb]. rewrite Hparse.
  eexists. split; [reflexivity|].
  cbn [self_results with_results set_error WebsiteAnalyzer res_error res_domain res_url
       res_platform res_scores res_issues res_opportunities].
  rewrite Hparse. repeat split; reflexivity.
Qed.

(* ===================================================================== *)
(** * The properties with hypotheses, on sample inputs                    *)
(* ===================================================================== *)

Lemma overall_of_equal_scores_witness :
  res_scores (self_results (calculate_overall_score sample_equal_scores)) !! "overall"
  = Some 70.
Proof.
  apply (overall_of_equal_scores sample_equal_scores 70); [lia|].
  intros k Hk. rewrite !elem_of_cons in Hk.
  destruct Hk as [->|[->|[->|[->|Hk]]]];
    [vm_compute; reflexivity..|destruct (not_elem_of_nil _ Hk)].
Defined.

Lemma image_word_detected_as_magento_witness :
  detect_platform sample_best
  = (with_results sample_best (set_platform "Magento" (self_results sample_best)),
     Some "magento").
Proof.
  apply (image_word_detected_as_magento sample_best sample_best_text eq_refl).
  - vm_compute. reflexivity.
  - intros name sigs sig Hin Hsig.
    apply list_elem_of_In in Hin. cbn [take platforms In] in Hin.
    destruct Hin as [[= <- <-]|[[= <- <-]|[[= <- <-]|[[= <- <-]|[]]]]];
      apply list_elem_of_In in Hsig; cbn [In] in Hsig;
      destruct Hsig as [<-|[<-|[]]]; vm_compute; reflexivity.
Defined.

Lemma report_reads_first_five_issues_witness :
  generate_audit_report sample_reported = generate_audit_report sample_reported_otherwise.
Proof.
  apply (report_reads_first_five_issues sample_reported sample_reported_otherwise);
    try reflexivity.
  intros k Hk. rewrite !elem_of_cons in Hk.
  destruct Hk as [->|[->|[->|[->|Hk]]]];
    [vm_compute; reflexivity..|destruct (not_elem_of_nil _ Hk)].
Defined.

Lemma analyze_website_fetch_failure_witness :
  exists r,
    analyze_website (GetJsonReturned sample_request) sample_urlparse (FetchRaised "timeout")
    = Some (Response (ResultsPayload r (generate_audit_report r)) 200) /\
    res_error r = Some "timeout" /\ res_domain r = "example.com" /\
    res_url r = "https://example.com" /\
    res_platform r = None /\ res_scores r = ∅ /\ res_issues r = [] /\
    res_opportunities r = [].
Proof.
  apply (analyze_website_fetch_failure [("url", JStr "example.com")] "example.com"
           "example.com" "timeout" sample_urlparse);
    [reflexivity|discriminate|reflexivity].
Defined.
